(** * generate_schema_doc: the table formatter and the document assembler

    A shallow embedding of [src/generate_schema_doc.py].  The program builds
    one word-processor document through a document-authoring library and
    saves it.  The library is an external collaborator; it is modelled here
    by the state it keeps (module [docx]): a document is the ordered list of
    its block-level elements, a table is its property element, its grid and
    its rows of cells, a cell is its paragraphs and its shading elements, a
    paragraph is its runs, a run is its texts, tabs and line breaks.

    Conventions of the model:
    - Python objects handed out by the library ([heading], [table],
      [row_cells], ...) alias parts of the document.  They are modelled as
      handles: the position of the block in the document body (and the row
      index for the cells of a row).  Every mutation goes through the handle
      into the one document of the environment, so the document keeps what
      was written before an exception was raised.
    - A string is the UTF-8 encoding of a Python string.  Assigning a text
      to a run splits it at tabs, newlines and carriage returns; the pieces
      go to the XML library, which raises ValueError on a piece that holds a
      character XML forbids, and the separators become tab and line-break
      elements, so that a carriage return reads back as a newline.
    - Documents are those made by [Document()] from the library's default
      template, in which every style the program names exists; assigning a
      style records its name.
    - Python exceptions are values of [exn]; an operation returns its result
      together with the environment it leaves behind. *)

From Stdlib Require Import ZArith NArith String Ascii DecimalString.
From stdpp Require Import base list strings.

Open Scope string_scope.
Open Scope list_scope.

(** ** Exceptions and the state monad of the program *)

Inductive exn : Set :=
| IndexError      (* a sequence indexed out of range *)
| ValueError      (* a text XML forbids, a heading level outside 0..9 *)
| AttributeError  (* a handle used on a block of the other kind *)
| OSError.        (* the output file cannot be written *)

Inductive result (A : Type) : Type :=
| Ok (a : A)
| Raise (e : exn).
Arguments Ok {A} a.
Arguments Raise {A} e.

(** ** The document-authoring library *)

Module docx.

(** [docx.shared.RGBColor] *)
Record RGBColor := mkRGB { red : Z; green : Z; blue : Z }.

(** [docx.shared.Pt]: a length, in English Metric Units. *)
Definition Pt (points : Z) : Z := (points * 12700)%Z.

Inductive WD_ALIGN_PARAGRAPH := LEFT | CENTER | RIGHT | JUSTIFY.

Record Font := mkFont {
  font_bold : option bool;
  font_italic : option bool;
  font_size : option Z;
  font_color : option RGBColor;
  font_name : option string }.

Definition default_font : Font := mkFont None None None None None.

(** What a run holds: text elements, tabs and line breaks. *)
Inductive RunItem :=
| RText (s : string)
| RTab
| RBreak.

(** A run: its content, its font and whether it holds a page break. *)
Record Run := mkRun {
  run_content : list RunItem;
  run_font : Font;
  run_page_break : bool }.

Record Paragraph := mkParagraph {
  par_style : option string;
  par_alignment : option WD_ALIGN_PARAGRAPH;
  par_runs : list Run }.

(** One edge element of [w:tblBorders], with the attributes the program
    sets on it. *)
Record Border := mkBorder {
  border_edge : string;
  border_val : string;
  border_sz : string;
  border_space : string;
  border_color : string }.

(** A cell: its paragraphs and the [w:fill] of each [w:shd] element
    appended to its properties. *)
Record Cell := mkCell {
  cell_paragraphs : list Paragraph;
  cell_shd : list string }.

(** A table: the style named in its properties, the [w:tblBorders]
    elements appended to its properties, the number of grid columns and
    the rows. *)
Record Table := mkTable {
  tbl_style : option string;
  tbl_borders : list (list Border);
  tbl_grid : nat;
  tbl_rows : list (list Cell) }.

Inductive Block :=
| BlockParagraph (p : Paragraph)
| BlockTable (t : Table).

Record Document := mkDocument {
  core_title : string;
  core_author : string;
  body : list Block }.

(** What the program can reach outside the document: the clock, the file
    system (which paths can be written, what has been saved) and the
    console. *)
Record World := mkWorld {
  clock : Z;
  writable : string -> bool;
  files : list (string * Document);
  stdout : list string }.

Record Env := mkEnv {
  doc : Document;
  world : World }.

Definition M (A : Type) : Type := Env -> result A * Env.

#[global] Instance M_ret : MRet M := fun A a e => (Ok a, e).

(** An exception ends the computation; the environment reached so far
    stays. *)
#[global] Instance M_bind : MBind M := fun A B f m e =>
  match m e with
  | (Ok a, e') => f a e'
  | (Raise x, e') => (Raise x, e')
  end.

Definition raise {A} (x : exn) : M A := fun e => (Raise x, e).

Fixpoint for_each {A} (xs : list A) (body : A -> M unit) : M unit :=
  match xs with
  | [] => mret tt
  | x :: xs' => body x ;; for_each xs' body
  end.

(** Python's [enumerate(xs, start)]. *)
Fixpoint enumerate {A} (start : nat) (xs : list A) : list (nat * A) :=
  match xs with
  | [] => []
  | x :: xs' => (start, x) :: enumerate (S start) xs'
  end.

(** Truth value of a Python string: false exactly for the empty one. *)
Definition truthy (s : string) : bool :=
  match s with
  | EmptyString => false
  | String _ _ => true
  end.

Definition str_int (n : Z) : string := NilZero.string_of_int (Z.to_int n).

Definition set_body (f : list Block -> list Block) (e : Env) : Env :=
  mkEnv (mkDocument (core_title (doc e)) (core_author (doc e)) (f (body (doc e))))
        (world e).

(** *** Texts *)

Definition newline : string := String "010" EmptyString.
Definition tab : string := String "009" EmptyString.

(** The bytes below 128 that XML allows: tab, newline, carriage return and
    everything from the space on. *)
Definition xml_char (n : N) : bool :=
  ((n =? 9) || (n =? 10) || (n =? 13) || (32 <=? n))%N.

(** The three-byte sequences the XML library refuses: the encodings of
    U+FFFE and U+FFFF and those of the surrogates U+D800 to U+DFFF. *)
Definition forbidden_triple (b0 b1 b2 : N) : bool :=
  (((b0 =? 239) && (b1 =? 191) && ((b2 =? 190) || (b2 =? 191)))
   || ((b0 =? 237) && (41088 <=? b1 * 256 + b2) && (b1 * 256 + b2 <=? 49087)))%N.

(** The test of the XML library on a text it is given: a byte below 128
    must be allowed by XML, and no forbidden sequence starts at a byte from
    128 on. *)
Fixpoint xml_compatible (s : string) : bool :=
  match s with
  | EmptyString => true
  | String a s' =>
      (if (128 <=? N_of_ascii a)%N
       then match s' with
            | String b (String c _) =>
                negb (forbidden_triple (N_of_ascii a) (N_of_ascii b) (N_of_ascii c))
            | _ => true
            end
       else xml_char (N_of_ascii a))
      && xml_compatible s'
  end.

(** The pending characters become one text element, if there are any. *)
Definition flush (bfr : string) : list RunItem :=
  match bfr with
  | EmptyString => []
  | String _ _ => [RText bfr]
  end.

(** The elements a text is turned into, with [bfr] the characters pending:
    a tab becomes a tab element, a newline or a carriage return a line
    break, and the characters between them text elements. *)
Fixpoint tokens (bfr text : string) : list RunItem :=
  match text with
  | EmptyString => flush bfr
  | String a text' =>
      if (N_of_ascii a =? 9)%N then flush bfr ++ RTab :: tokens EmptyString text'
      else if ((N_of_ascii a =? 10) || (N_of_ascii a =? 13))%N
           then flush bfr ++ RBreak :: tokens EmptyString text'
           else tokens (bfr +:+ String a EmptyString) text'
  end.

Definition item_ok (item : RunItem) : bool :=
  match item with
  | RText s => xml_compatible s
  | RTab | RBreak => true
  end.

(** The elements are added to the content one by one; the XML library
    raises ValueError on a text it refuses, and what was added stays. *)
Fixpoint add_items (items content : list RunItem) : result unit * list RunItem :=
  match items with
  | [] => (Ok tt, content)
  | item :: items' =>
      if item_ok item then add_items items' (content ++ [item])
      else (Raise ValueError, content)
  end.

(** [run.text = text]: the content of the run is replaced. *)
Definition run_text_setter (text : string) : result unit * list RunItem :=
  add_items (tokens EmptyString text) [].

(** The library takes the text: no part of it is refused. *)
Definition accepted (text : string) : bool :=
  forallb item_ok (tokens EmptyString text).

(** *** Documents *)

(** The document of the default template; its author is the library. *)
Definition default_document : Document :=
  mkDocument EmptyString "python-docx" [].

(** [doc = Document()] *)
Definition Document_ : M unit := fun e =>
  (Ok tt, mkEnv default_document (world e)).

Definition set_core_title (s : string) : M unit := fun e =>
  (Ok tt, mkEnv (mkDocument s (core_author (doc e)) (body (doc e))) (world e)).

Definition set_core_author (s : string) : M unit := fun e =>
  (Ok tt, mkEnv (mkDocument (core_title (doc e)) s (body (doc e))) (world e)).

(** *** Paragraphs *)

Definition append_block (b : Block) : M nat := fun e =>
  (Ok (length (body (doc e))), set_body (fun bs => bs ++ [b]) e).

(** A mutation of the paragraph behind a handle; what the mutation did
    before it raised stays. *)
Definition with_paragraph (h : nat) (f : Paragraph -> result unit * Paragraph) : M unit :=
  fun e =>
    match body (doc e) !! h with
    | Some (BlockParagraph p) =>
        (fst (f p), set_body (fun bs => <[h := BlockParagraph (snd (f p))]> bs) e)
    | _ => (Raise AttributeError, e)
    end.

(** [p.add_run(text)]: a run is added to the paragraph, and a text that is
    true is assigned to it. *)
Definition add_run (h : nat) (text : string) : M unit :=
  with_paragraph h (fun p =>
    let assigned := if truthy text then run_text_setter text else (Ok tt, []) in
    (fst assigned,
     mkParagraph (par_style p) (par_alignment p)
                 (par_runs p ++ [mkRun (snd assigned) default_font false]))).

(** [p.style = name] *)
Definition set_paragraph_style (h : nat) (name : string) : M unit :=
  with_paragraph h (fun p =>
    (Ok tt, mkParagraph (Some name) (par_alignment p) (par_runs p))).

(** [doc.add_paragraph(text, style)]: the paragraph is appended, then a
    text that is true is put into a run of it, then the style is set; the
    result is the handle of the new paragraph. *)
Definition add_paragraph (text : string) (style : option string) : M nat :=
  paragraph ← append_block (BlockParagraph (mkParagraph None None []));
  (if truthy text then add_run paragraph text else mret tt) ;;
  match style with
  | Some name => set_paragraph_style paragraph name
  | None => mret tt
  end ;;
  mret paragraph.

Definition heading_style (level : Z) : string :=
  if (level =? 0)%Z then "Title" else "Heading " +:+ str_int level.

(** [doc.add_heading(text, level)] *)
Definition add_heading (text : string) (level : Z) : M nat :=
  if ((0 <=? level) && (level <=? 9))%Z
  then add_paragraph text (Some (heading_style level))
  else raise ValueError.

(** [doc.add_page_break()]: a paragraph whose one run holds a page
    break. *)
Definition add_page_break : M nat :=
  append_block
    (BlockParagraph (mkParagraph None None [mkRun [] default_font true])).

(** [p.alignment = a] *)
Definition set_alignment (h : nat) (a : WD_ALIGN_PARAGRAPH) : M unit :=
  with_paragraph h (fun p =>
    (Ok tt, mkParagraph (par_style p) (Some a) (par_runs p))).

Definition map_font (f : Font -> Font) (r : Run) : Run :=
  mkRun (run_content r) (f (run_font r)) (run_page_break r).

(** [p.runs[i].font.<attribute> = value]: [runs[i]] raises IndexError when
    the paragraph has no such run. *)
Definition set_run_font (h : nat) (i : nat) (f : Font -> Font) : M unit :=
  with_paragraph h (fun p =>
    match par_runs p !! i with
    | Some r => (Ok tt, mkParagraph (par_style p) (par_alignment p)
                                    (<[i := map_font f r]> (par_runs p)))
    | None => (Raise IndexError, p)
    end).

Definition bold_ (b : bool) (f : Font) : Font :=
  mkFont (Some b) (font_italic f) (font_size f) (font_color f) (font_name f).
Definition italic_ (b : bool) (f : Font) : Font :=
  mkFont (font_bold f) (Some b) (font_size f) (font_color f) (font_name f).
Definition size_ (s : Z) (f : Font) : Font :=
  mkFont (font_bold f) (font_italic f) (Some s) (font_color f) (font_name f).
Definition color_rgb_ (c : RGBColor) (f : Font) : Font :=
  mkFont (font_bold f) (font_italic f) (font_size f) (Some c) (font_name f).
Definition name_ (n : string) (f : Font) : Font :=
  mkFont (font_bold f) (font_italic f) (font_size f) (font_color f) (Some n).

(** *** Tables *)

(** A cell of a new table holds one paragraph without runs. *)
Definition new_cell : Cell := mkCell [mkParagraph None None []] [].

Definition new_table (rows cols : nat) : Table :=
  mkTable None [] cols (replicate rows (replicate cols new_cell)).

(** [doc.add_table(rows, cols)] *)
Definition add_table (rows cols : nat) : M nat :=
  append_block (BlockTable (new_table rows cols)).

(** A mutation of the table behind a handle; what the mutation did before
    it raised stays. *)
Definition with_table (h : nat) (f : Table -> result unit * Table) : M unit :=
  fun e =>
    match body (doc e) !! h with
    | Some (BlockTable t) =>
        (fst (f t), set_body (fun bs => <[h := BlockTable (snd (f t))]> bs) e)
    | _ => (Raise AttributeError, e)
    end.

(** [table.style = name] *)
Definition set_table_style (h : nat) (name : string) : M unit :=
  with_table h (fun t =>
    (Ok tt, mkTable (Some name) (tbl_borders t) (tbl_grid t) (tbl_rows t))).

(** [tblPr.append(tblBorders)] *)
Definition tblPr_append_borders (h : nat) (tblBorders : list Border) : M unit :=
  with_table h (fun t =>
    (Ok tt, mkTable (tbl_style t) (tbl_borders t ++ [tblBorders]) (tbl_grid t)
                    (tbl_rows t))).

(** [table.rows[r].cells]: the handle of the cells of row [r];
    [rows[r]] raises IndexError when the table has no such row. *)
Definition table_row_cells (h : nat) (r : nat) : M (nat * nat) :=
  fun e =>
    match body (doc e) !! h with
    | Some (BlockTable t) =>
        match tbl_rows t !! r with
        | Some _ => (Ok (h, r), e)
        | None => (Raise IndexError, e)
        end
    | _ => (Raise AttributeError, e)
    end.

Definition set_rows (rows : list (list Cell)) (t : Table) : Table :=
  mkTable (tbl_style t) (tbl_borders t) (tbl_grid t) rows.

(** The table with cell [c] of row [r] changed by [f]; indexing raises
    IndexError when the table has no such row or the row no such cell, and
    the cell keeps what [f] did before it raised. *)
Definition update_cell (r c : nat) (f : Cell -> result unit * Cell) (t : Table)
    : result unit * Table :=
  match tbl_rows t !! r with
  | Some row =>
      match row !! c with
      | Some cell =>
          (fst (f cell), set_rows (<[r := <[c := snd (f cell)]> row]> (tbl_rows t)) t)
      | None => (Raise IndexError, t)
      end
  | None => (Raise IndexError, t)
  end.

(** A mutation of [cells[c]]. *)
Definition with_cell (cells : nat * nat) (c : nat) (f : Cell -> result unit * Cell)
    : M unit :=
  with_table (fst cells) (update_cell (snd cells) c f).

(** The cell after [cell.text = text]: its content is replaced by one
    paragraph with one run, to which the text is assigned. *)
Definition text_cell (text : string) (cell : Cell) : Cell :=
  mkCell [mkParagraph None None
            [mkRun (snd (run_text_setter text)) default_font false]]
         (cell_shd cell).

(** [cells[c].text = text] *)
Definition set_cell_text (cells : nat * nat) (c : nat) (text : string) : M unit :=
  with_cell cells c (fun cell => (fst (run_text_setter text), text_cell text cell)).

(** [for paragraph in cells[c].paragraphs: for run in paragraph.runs:]
    with a body that assigns font attributes of [run]. *)
Definition for_runs_of_cell (cells : nat * nat) (c : nat) (f : Font -> Font) : M unit :=
  with_cell cells c (fun cell =>
    (Ok tt,
     mkCell (map (fun p => mkParagraph (par_style p) (par_alignment p)
                                       (map (map_font f) (par_runs p)))
                 (cell_paragraphs cell))
            (cell_shd cell))).

(** [cells[c]._element.get_or_add_tcPr().append(shd)] for a [w:shd]
    element whose [w:fill] is [fill]. *)
Definition tcPr_append_shd (cells : nat * nat) (c : nat) (fill : string) : M unit :=
  with_cell cells c (fun cell =>
    (Ok tt, mkCell (cell_paragraphs cell) (cell_shd cell ++ [fill]))).

(** *** Saving and printing *)

(** [doc.save(path)] *)
Definition save (path : string) : M unit := fun e =>
  if writable (world e) path
  then (Ok tt, mkEnv (doc e)
                     (mkWorld (clock (world e)) (writable (world e))
                              ((path, doc e) :: files (world e))
                              (stdout (world e))))
  else (Raise OSError, e).

Definition print (line : string) : M unit := fun e =>
  (Ok tt, mkEnv (doc e)
                (mkWorld (clock (world e)) (writable (world e)) (files (world e))
                         (stdout (world e) ++ [line]))).

(** *** Reading a document back *)

Definition item_text (item : RunItem) : string :=
  match item with
  | RText s => s
  | RTab => tab
  | RBreak => newline
  end.

(** [run.text]: the texts of the elements of the run, a tab for a tab
    element and a newline for a line break; a page break is no text. *)
Definition run_text (r : Run) : string :=
  String.concat EmptyString (map item_text (run_content r)).

(** [paragraph.text] *)
Definition paragraph_text (p : Paragraph) : string :=
  String.concat EmptyString (map run_text (par_runs p)).

(** [cell.text] *)
Definition cell_text (c : Cell) : string :=
  String.concat newline (map paragraph_text (cell_paragraphs c)).

Definition cell_runs (c : Cell) : list Run :=
  concat (map par_runs (cell_paragraphs c)).

Definition tables_of (bs : list Block) : list Table :=
  omap (fun b => match b with BlockTable t => Some t | _ => None end) bs.

Definition paragraphs_of (bs : list Block) : list Paragraph :=
  omap (fun b => match b with BlockParagraph p => Some p | _ => None end) bs.

(** A text as it reads back: every carriage return has become a
    newline. *)
Fixpoint cr_to_lf (text : string) : string :=
  match text with
  | EmptyString => EmptyString
  | String a text' =>
      String (if (N_of_ascii a =? 13)%N then "010"%char else a) (cr_to_lf text')
  end.

End docx.
Import docx.

(** ** Python values put into body cells *)

Inductive PyVal :=
| PyStr (s : string)
| PyBool (b : bool)
| PyInt (n : Z)
| PyNone.

(** Python's [str(value)], for the strings, booleans, integers and None.
    (From version 3.11 on CPython refuses by default to convert an integer
    of more than 4300 digits; that limit is not modelled.) *)
Definition str (v : PyVal) : string :=
  match v with
  | PyStr s => s
  | PyBool true => "True"
  | PyBool false => "False"
  | PyInt n => str_int n
  | PyNone => "None"
  end.

(** ** The program *)

Definition border_names : list string :=
  ["top"; "left"; "bottom"; "right"; "insideH"; "insideV"].

(** [add_table_borders(table)].  The table properties element is a required
    child of a table and [add_table] makes it, so the test on line 14 is
    false and lines 15-16 do not run. *)
Definition add_table_borders (table : nat) : M unit :=
  let tblBorders :=
    map (fun border_name => mkBorder border_name "single" "4" "0" "000000")
        border_names in
  tblPr_append_borders table tblBorders.

(** [create_schema_table(doc, title, headers, rows)]; [doc] is the document
    of the environment. *)
Definition create_schema_table
    (title : string) (headers : list string) (rows : list (list PyVal)) : M unit :=
  (if truthy title then
     heading ← add_heading title 2;
     set_run_font heading 0 (color_rgb_ (mkRGB 0 51 102))
   else mret tt) ;;
  table ← add_table (length rows + 1) (length headers);
  set_table_style table "Light Grid Accent 1" ;;
  add_table_borders table ;;
  hdr_cells ← table_row_cells table 0;
  for_each (enumerate 0 headers) (fun '(i, header) =>
    set_cell_text hdr_cells i header ;;
    for_runs_of_cell hdr_cells i (fun font =>
      color_rgb_ (mkRGB 255 255 255) (size_ (Pt 10) (bold_ true font))) ;;
    tcPr_append_shd hdr_cells i "0070C0") ;;
  for_each (enumerate 1 rows) (fun '(row_idx, row_data) =>
    row_cells ← table_row_cells table row_idx;
    for_each (enumerate 0 row_data) (fun '(col_idx, cell_data) =>
      set_cell_text row_cells col_idx (str cell_data) ;;
      for_runs_of_cell row_cells col_idx (size_ (Pt 9)))) ;;
  _ ← add_paragraph EmptyString None;
  mret tt.

(** *** The literals of [main] *)

(** The double quote character, for the literals that hold one. *)
Definition dq : string := String (ascii_of_nat 34) EmptyString.

Definition onboarding_data : list (list PyVal) :=
  [
    [PyStr "data_flow_id";
     PyStr "String";
     PyStr "✅ Yes";
     PyStr "Unique identifier for the pipeline"];
    [PyStr "data_flow_group";
     PyStr "String";
     PyStr "✅ Yes";
     PyStr "Group identifier for launching multiple pipelines under single DLT Pipeline"];
    [PyStr "source_system";
     PyStr "String";
     PyStr "❌ Optional";
     PyStr "Source system identifier (e.g., MYSQL, ORACLE, SAP)"];
    [PyStr "source_format";
     PyStr "String";
     PyStr "✅ Yes";
     PyStr "Source format: cloudFiles, eventhub, kafka, delta, snapshot"];
    [PyStr "source_details";
     PyStr "Object";
     PyStr "✅ Yes";
     PyStr "Source-specific configuration (see subsection 1.1)"];
    [PyStr "bronze_catalog_{env}";
     PyStr "String";
     PyStr "⚠️ Recommended";
     PyStr "Unity Catalog name for bronze layer (env = dev/prod/staging)"];
    [PyStr "bronze_database_{env}";
     PyStr "String";
     PyStr "✅ Yes";
     PyStr "Delta Lake bronze database name"];
    [PyStr "bronze_table";
     PyStr "String";
     PyStr "✅ Yes";
     PyStr "Delta Lake bronze table name"];
    [PyStr "bronze_table_comment";
     PyStr "String";
     PyStr "❌ Optional";
     PyStr "Bronze table comment/description"];
    [PyStr "bronze_reader_options";
     PyStr "Object";
     PyStr "❌ Optional";
     PyStr ("Spark reader options (e.g., {" +:+ dq +:+ "header" +:+ dq +:+ ": " +:+ dq +:+ "true" +:+ dq +:+ "})")];
    [PyStr "bronze_partition_columns";
     PyStr "String/Array";
     PyStr "❌ Optional";
     PyStr "Bronze table partition columns list"];
    [PyStr "bronze_table_cluster_by";
     PyStr "Array";
     PyStr "❌ Optional";
     PyStr "Bronze table cluster by columns list"];
    [PyStr "bronze_cdc_apply_changes";
     PyStr "Object";
     PyStr "❌ Optional";
     PyStr "Bronze CDC apply changes configuration (see subsection 1.2)"];
    [PyStr "bronze_apply_changes_from_snapshot";
     PyStr "Object";
     PyStr "❌ Optional";
     PyStr "Bronze apply changes from snapshot config (see subsection 1.3)"];
    [PyStr "bronze_table_path_{env}";
     PyStr "String";
     PyStr "⚠️ Conditional";
     PyStr "Bronze table storage path (mandatory if UC not enabled)"];
    [PyStr "bronze_table_properties";
     PyStr "Object";
     PyStr "❌ Optional";
     PyStr ("DLT table properties (e.g., {" +:+ dq +:+ "pipelines.autoOptimize.managed" +:+ dq +:+ ": " +:+ dq +:+ "false" +:+ dq +:+ "})")];
    [PyStr "bronze_sink";
     PyStr "Object";
     PyStr "❌ Optional";
     PyStr "DLT Sink API properties for bronze layer (see subsection 1.5)"];
    [PyStr "bronze_data_quality_expectations_json_{env}";
     PyStr "String";
     PyStr "❌ Optional";
     PyStr "Path to bronze DQE JSON file"];
    [PyStr "bronze_catalog_quarantine_{env}";
     PyStr "String";
     PyStr "❌ Optional";
     PyStr "Unity Catalog name for quarantine data"];
    [PyStr "bronze_database_quarantine_{env}";
     PyStr "String";
     PyStr "❌ Optional";
     PyStr "Database for quarantine data that fails expectations"];
    [PyStr "bronze_quarantine_table";
     PyStr "String";
     PyStr "❌ Optional";
     PyStr "Table name for quarantine data"];
    [PyStr "bronze_quarantine_table_comment";
     PyStr "String";
     PyStr "❌ Optional";
     PyStr "Quarantine table comment"];
    [PyStr "bronze_quarantine_table_path_{env}";
     PyStr "String";
     PyStr "❌ Optional";
     PyStr "Quarantine table storage path"];
    [PyStr "bronze_quarantine_table_partitions";
     PyStr "Array";
     PyStr "❌ Optional";
     PyStr "Quarantine table partition columns"];
    [PyStr "bronze_quarantine_table_cluster_by";
     PyStr "Array";
     PyStr "❌ Optional";
     PyStr "Quarantine table cluster columns"];
    [PyStr "bronze_quarantine_table_properties";
     PyStr "Object";
     PyStr "❌ Optional";
     PyStr "DLT table properties for quarantine table"];
    [PyStr "bronze_append_flows";
     PyStr "Array";
     PyStr "❌ Optional";
     PyStr "Bronze table append flows configuration (see subsection 1.4)"];
    [PyStr "silver_catalog_{env}";
     PyStr "String";
     PyStr "⚠️ Recommended";
     PyStr "Unity Catalog name for silver layer"];
    [PyStr "silver_database_{env}";
     PyStr "String";
     PyStr "⚠️ Conditional";
     PyStr "Silver database name (mandatory for silver layer)"];
    [PyStr "silver_table";
     PyStr "String";
     PyStr "⚠️ Conditional";
     PyStr "Silver table name (mandatory for silver layer)"];
    [PyStr "silver_table_comment";
     PyStr "String";
     PyStr "❌ Optional";
     PyStr "Silver table comment/description"];
    [PyStr "silver_partition_columns";
     PyStr "Array";
     PyStr "❌ Optional";
     PyStr "Silver table partition columns list"];
    [PyStr "silver_table_cluster_by";
     PyStr "Array";
     PyStr "❌ Optional";
     PyStr "Silver table cluster by columns list"];
    [PyStr "silver_cdc_apply_changes";
     PyStr "Object";
     PyStr "❌ Optional";
     PyStr "Silver CDC apply changes configuration (see subsection 1.2)"];
    [PyStr "silver_apply_changes_from_snapshot";
     PyStr "Object";
     PyStr "❌ Optional";
     PyStr "Silver apply changes from snapshot configuration"];
    [PyStr "silver_table_path_{env}";
     PyStr "String";
     PyStr "⚠️ Conditional";
     PyStr "Silver table storage path (mandatory if UC not enabled for silver layer)"];
    [PyStr "silver_table_properties";
     PyStr "Object";
     PyStr "❌ Optional";
     PyStr "DLT table properties for silver table"];
    [PyStr "silver_sink";
     PyStr "Object";
     PyStr "❌ Optional";
     PyStr "DLT Sink API properties for silver layer"];
    [PyStr "silver_transformation_json_{env}";
     PyStr "String";
     PyStr "⚠️ Conditional";
     PyStr "Path to silver transformation JSON file (mandatory for silver layer)"];
    [PyStr "silver_data_quality_expectations_json_{env}";
     PyStr "String";
     PyStr "❌ Optional";
     PyStr "Path to silver DQE JSON file"];
    [PyStr "silver_append_flows";
     PyStr "Array";
     PyStr "❌ Optional";
     PyStr "Silver table append flows configuration"]
  ].

Definition cloudfiles_data : list (list PyVal) :=
  [
    [PyStr "source_database";
     PyStr "String";
     PyStr "❌ Optional";
     PyStr "Source database name"];
    [PyStr "source_table";
     PyStr "String";
     PyStr "❌ Optional";
     PyStr "Source table name"];
    [PyStr "source_path_{env}";
     PyStr "String";
     PyStr "✅ Yes";
     PyStr "Source file path for CloudFiles"];
    [PyStr "source_schema_path";
     PyStr "String";
     PyStr "✅ Yes";
     PyStr "Path to DDL schema file (Spark DDL format)"];
    [PyStr "source_metadata";
     PyStr "Object";
     PyStr "❌ Optional";
     PyStr "Metadata configuration for _metadata columns"];
    [PyStr "source_metadata.include_autoloader_metadata_column";
     PyStr "String";
     PyStr "❌ Optional";
     PyStr (dq +:+ "True" +:+ dq +:+ "/" +:+ dq +:+ "False" +:+ dq +:+ " to add _metadata column")];
    [PyStr "source_metadata.autoloader_metadata_col_name";
     PyStr "String";
     PyStr "❌ Optional";
     PyStr ("Rename _metadata column (default: " +:+ dq +:+ "source_metadata" +:+ dq +:+ ")")];
    [PyStr "source_metadata.select_metadata_cols";
     PyStr "Object";
     PyStr "❌ Optional";
     PyStr ("Extract columns from _metadata (e.g., {" +:+ dq +:+ "input_file_name" +:+ dq +:+ ": " +:+ dq +:+ "_metadata.file_name" +:+ dq +:+ "})")]
  ].

Definition eventhub_data : list (list PyVal) :=
  [
    [PyStr "source_schema_path";
     PyStr "String";
     PyStr "✅ Yes";
     PyStr "Path to DDL schema file"];
    [PyStr "eventhub.accessKeyName";
     PyStr "String";
     PyStr "✅ Yes";
     PyStr "EventHub access key name"];
    [PyStr "eventhub.accessKeySecretName";
     PyStr "String";
     PyStr "✅ Yes";
     PyStr "EventHub access key secret name"];
    [PyStr "eventhub.name";
     PyStr "String";
     PyStr "✅ Yes";
     PyStr "EventHub name"];
    [PyStr "eventhub.secretsScopeName";
     PyStr "String";
     PyStr "✅ Yes";
     PyStr "Databricks secrets scope name"];
    [PyStr "eventhub.namespace";
     PyStr "String";
     PyStr "✅ Yes";
     PyStr "EventHub namespace"];
    [PyStr "eventhub.port";
     PyStr "String";
     PyStr "✅ Yes";
     PyStr ("EventHub port (typically " +:+ dq +:+ "9093" +:+ dq +:+ ")")];
    [PyStr "kafka.sasl.mechanism";
     PyStr "String";
     PyStr "✅ Yes";
     PyStr ("SASL mechanism (typically " +:+ dq +:+ "PLAIN" +:+ dq +:+ ")")];
    [PyStr "kafka.security.protocol";
     PyStr "String";
     PyStr "✅ Yes";
     PyStr ("Security protocol (typically " +:+ dq +:+ "SASL_SSL" +:+ dq +:+ ")")]
  ].

Definition snapshot_data : list (list PyVal) :=
  [
    [PyStr "source_path_{env}";
     PyStr "String";
     PyStr "✅ Yes";
     PyStr "Path to snapshot files"];
    [PyStr "snapshot_format";
     PyStr "String";
     PyStr "✅ Yes";
     PyStr ("Snapshot file format (e.g., " +:+ dq +:+ "csv" +:+ dq +:+ ", " +:+ dq +:+ "parquet" +:+ dq +:+ ")")]
  ].

Definition cdc_data : list (list PyVal) :=
  [
    [PyStr "keys";
     PyStr "Array";
     PyStr "✅ Yes";
     PyStr "Primary key columns for CDC operations"];
    [PyStr "sequence_by";
     PyStr "String";
     PyStr "✅ Yes";
     PyStr "Column used for ordering changes (e.g., timestamp)"];
    [PyStr "scd_type";
     PyStr "String";
     PyStr "✅ Yes";
     PyStr ("Slowly Changing Dimension type: " +:+ dq +:+ "1" +:+ dq +:+ " or " +:+ dq +:+ "2" +:+ dq)];
    [PyStr "where";
     PyStr "String";
     PyStr "❌ Optional";
     PyStr "Filter condition for applying changes"];
    [PyStr "ignore_null_updates";
     PyStr "Boolean";
     PyStr "❌ Optional";
     PyStr "Whether to ignore null updates (default: false)"];
    [PyStr "apply_as_deletes";
     PyStr "String";
     PyStr "❌ Optional";
     PyStr ("Expression to identify delete operations (e.g., " +:+ dq +:+ "operation = 'DELETE'" +:+ dq +:+ ")")];
    [PyStr "apply_as_truncates";
     PyStr "String";
     PyStr "❌ Optional";
     PyStr "Expression to identify truncate operations"];
    [PyStr "column_list";
     PyStr "Array";
     PyStr "❌ Optional";
     PyStr "Specific columns to include in CDC"];
    [PyStr "except_column_list";
     PyStr "Array";
     PyStr "❌ Optional";
     PyStr ("Columns to exclude from CDC (e.g., [" +:+ dq +:+ "operation" +:+ dq +:+ ", " +:+ dq +:+ "_rescued_data" +:+ dq +:+ "])")];
    [PyStr "track_history_column_list";
     PyStr "Array";
     PyStr "❌ Optional";
     PyStr "Columns to track history for (SCD Type 2)"];
    [PyStr "track_history_except_column_list";
     PyStr "Array";
     PyStr "❌ Optional";
     PyStr "Columns to exclude from history tracking"];
    [PyStr "flow_name";
     PyStr "String";
     PyStr "❌ Optional";
     PyStr "Custom flow name"];
    [PyStr "once";
     PyStr "Boolean";
     PyStr "❌ Optional";
     PyStr "Process data once (default: false)"];
    [PyStr "ignore_null_updates_column_list";
     PyStr "Array";
     PyStr "❌ Optional";
     PyStr "Specific columns to ignore null updates"];
    [PyStr "ignore_null_updates_except_column_list";
     PyStr "Array";
     PyStr "❌ Optional";
     PyStr "Columns to exclude from ignore null updates"]
  ].

Definition snapshot_changes_data : list (list PyVal) :=
  [
    [PyStr "keys";
     PyStr "Array";
     PyStr "✅ Yes";
     PyStr "Primary key columns for snapshot tracking"];
    [PyStr "scd_type";
     PyStr "String";
     PyStr "✅ Yes";
     PyStr ("Slowly Changing Dimension type: " +:+ dq +:+ "1" +:+ dq +:+ " or " +:+ dq +:+ "2" +:+ dq)];
    [PyStr "track_history_column_list";
     PyStr "Array";
     PyStr "❌ Optional";
     PyStr "Columns to track history for (SCD Type 2)"];
    [PyStr "track_history_except_column_list";
     PyStr "Array";
     PyStr "❌ Optional";
     PyStr "Columns to exclude from history tracking"]
  ].

Definition append_flows_data : list (list PyVal) :=
  [
    [PyStr "name";
     PyStr "String";
     PyStr "✅ Yes";
     PyStr "Unique name for the append flow"];
    [PyStr "source_format";
     PyStr "String";
     PyStr "✅ Yes";
     PyStr "Source format for append flow"];
    [PyStr "create_streaming_table";
     PyStr "Boolean";
     PyStr "✅ Yes";
     PyStr "Whether to create streaming table (true/false)"];
    [PyStr "source_details";
     PyStr "Object";
     PyStr "✅ Yes";
     PyStr "Source details (same structure as main source_details)"];
    [PyStr "comment";
     PyStr "String";
     PyStr "❌ Optional";
     PyStr "Append flow comment/description"];
    [PyStr "reader_options";
     PyStr "Object";
     PyStr "❌ Optional";
     PyStr "Spark reader options"];
    [PyStr "spark_conf";
     PyStr "Object";
     PyStr "❌ Optional";
     PyStr "Spark configuration for this flow"];
    [PyStr "once";
     PyStr "Boolean";
     PyStr "❌ Optional";
     PyStr "Process data once (default: false)"];
    [PyStr "target";
     PyStr "String";
     PyStr "❌ Optional";
     PyStr "Target table name for silver append flows"]
  ].

Definition sink_data : list (list PyVal) :=
  [
    [PyStr "name";
     PyStr "String";
     PyStr "✅ Yes";
     PyStr "Sink name identifier"];
    [PyStr "format";
     PyStr "String";
     PyStr "✅ Yes";
     PyStr "Sink format: delta, kafka, eventhub"];
    [PyStr "options";
     PyStr "Object";
     PyStr "✅ Yes";
     PyStr ("Format-specific options (e.g., {" +:+ dq +:+ "tableName" +:+ dq +:+ ": " +:+ dq +:+ "catalog.schema.table" +:+ dq +:+ "} for delta)")];
    [PyStr "select_exp";
     PyStr "Array";
     PyStr "❌ Optional";
     PyStr "SQL expressions to apply before sinking"];
    [PyStr "where_clause";
     PyStr "String";
     PyStr "❌ Optional";
     PyStr "Filter condition before sinking"]
  ].

Definition silver_transform_data : list (list PyVal) :=
  [
    [PyStr "target_table";
     PyStr "String";
     PyStr "✅ Yes";
     PyStr "Target silver table name for transformation output"];
    [PyStr "select_exp";
     PyStr "Array";
     PyStr "✅ Yes";
     PyStr ("Array of SQL expressions/column selections (e.g., [" +:+ dq +:+ "concat(first_name,' ',last_name) as full_name" +:+ dq +:+ "])")];
    [PyStr "target_partition_cols";
     PyStr "Array";
     PyStr "❌ Optional";
     PyStr "Partition columns for the target table"];
    [PyStr "where_clause";
     PyStr "Array";
     PyStr "❌ Optional";
     PyStr ("Array of filter conditions to apply (e.g., [" +:+ dq +:+ "country = 'United States'" +:+ dq +:+ "])")]
  ].

Definition dqe_data : list (list PyVal) :=
  [
    [PyStr "expect";
     PyStr "Object";
     PyStr "❌ Optional";
     PyStr "Rules where failing records are INCLUDED in target dataset. Key=rule name, Value=SQL condition"];
    [PyStr "expect_or_fail";
     PyStr "Object";
     PyStr "❌ Optional";
     PyStr "Rules where failing records HALT pipeline execution. Key=rule name, Value=SQL condition"];
    [PyStr "expect_or_drop";
     PyStr "Object";
     PyStr "❌ Optional";
     PyStr "Rules where failing records are DROPPED from target dataset. Key=rule name, Value=SQL condition"];
    [PyStr "expect_or_quarantine";
     PyStr "Object";
     PyStr "❌ Optional";
     PyStr "Rules where failing records go to quarantine table (Bronze layer only). Key=rule name, Value=SQL condition"]
  ].

Definition notes : list string :=
  [
    "{env} placeholder represents environment suffix: _dev, _prod, _staging, _it, etc.";
    "Mandatory Fields (✅): Must be provided in all cases";
    "Conditional Fields (⚠️ Conditional): Required based on context (e.g., bronze_table_path_{env} is mandatory only when Unity Catalog is not enabled; silver fields are mandatory when defining silver layer)";
    "Recommended Fields (⚠️ Recommended): Highly recommended for Unity Catalog environments";
    "Optional Fields (❌): Can be omitted";
    "All JSON files must be valid JSON format and accessible from the Databricks workspace";
    "Schema files referenced in source_schema_path should be in Spark DDL format";
    "Source code validation occurs in src/onboard_dataflowspec.py and src/dataflow_spec.py"
  ].

Definition output_path : string :=
  "/Users/paulambasu/Downloads/Development/Databricks/dlt-meta/DLT-META_JSON_Schema_Documentation.docx".

(** [main()]: the document is assembled in the environment it is run in and
    saved to [output_path]. *)
Definition main : M unit :=
  Document_ ;;
  set_core_title "DLT-META JSON Configuration Schemas" ;;
  set_core_author "DLT-META" ;;
  title ← add_heading "DLT-META JSON Configuration Schemas" 1;
  set_alignment title CENTER ;;
  set_run_font title 0 (color_rgb_ (mkRGB 0 51 102)) ;;
  set_run_font title 0 (size_ (Pt 24)) ;;
  subtitle ← add_paragraph "Complete Reference Guide" None;
  set_alignment subtitle CENTER ;;
  set_run_font subtitle 0 (size_ (Pt 14)) ;;
  set_run_font subtitle 0 (italic_ true) ;;
  _ ← add_paragraph EmptyString None;
  _ ← add_paragraph "Generated: October 23, 2025" None;
  _ ← add_page_break;
  _ ← add_heading "Table of Contents" 1;
  toc ← add_paragraph EmptyString None;
  add_run toc ("1. Onboarding JSON Schema (Data Flow Specification)" +:+ newline) ;;
  add_run toc ("   1.1 Source Details Object" +:+ newline) ;;
  add_run toc ("   1.2 CDC Apply Changes Object" +:+ newline) ;;
  add_run toc ("   1.3 Apply Changes From Snapshot Object" +:+ newline) ;;
  add_run toc ("   1.4 Append Flows Array Object" +:+ newline) ;;
  add_run toc ("   1.5 Sink Object (DLT Sink API)" +:+ newline) ;;
  add_run toc ("2. Silver Transformations JSON Schema" +:+ newline) ;;
  add_run toc ("3. Data Quality Expectations (DQE) JSON Schema" +:+ newline) ;;
  _ ← add_page_break;
  _ ← add_heading "1. Onboarding JSON Schema (Data Flow Specification)" 1;
  _ ← add_paragraph "This is the main configuration file for defining data pipelines in DLT-META." None;
  create_schema_table "Main Configuration Fields"
    ["Field Name"; "Type"; "Mandatory"; "Description"]
    onboarding_data ;;
  _ ← add_page_break;
  _ ← add_heading "1.1 Source Details Object" 2;
  _ ← add_heading "For CloudFiles Source Format:" 3;
  create_schema_table EmptyString
    ["Field Name"; "Type"; "Mandatory"; "Description"]
    cloudfiles_data ;;
  _ ← add_heading "For EventHub Source Format:" 3;
  create_schema_table EmptyString
    ["Field Name"; "Type"; "Mandatory"; "Description"]
    eventhub_data ;;
  _ ← add_heading "For Snapshot Source Format:" 3;
  create_schema_table EmptyString
    ["Field Name"; "Type"; "Mandatory"; "Description"]
    snapshot_data ;;
  _ ← add_page_break;
  _ ← add_heading "1.2 CDC Apply Changes Object" 2;
  create_schema_table EmptyString
    ["Field Name"; "Type"; "Mandatory"; "Description"]
    cdc_data ;;
  _ ← add_page_break;
  _ ← add_heading "1.3 Apply Changes From Snapshot Object" 2;
  create_schema_table EmptyString
    ["Field Name"; "Type"; "Mandatory"; "Description"]
    snapshot_changes_data ;;
  _ ← add_heading "1.4 Append Flows Array Object" 2;
  create_schema_table EmptyString
    ["Field Name"; "Type"; "Mandatory"; "Description"]
    append_flows_data ;;
  _ ← add_page_break;
  _ ← add_heading "1.5 Sink Object (DLT Sink API)" 2;
  create_schema_table EmptyString
    ["Field Name"; "Type"; "Mandatory"; "Description"]
    sink_data ;;
  _ ← add_page_break;
  _ ← add_heading "2. Silver Transformations JSON Schema" 1;
  _ ← add_paragraph "This file defines SQL transformations for silver layer tables." None;
  create_schema_table EmptyString
    ["Field Name"; "Type"; "Mandatory"; "Description"]
    silver_transform_data ;;
  _ ← add_heading "Example:" 3;
  example ← add_paragraph ("[" +:+ newline +:+
      "  {" +:+ newline +:+
      "    " +:+ dq +:+ "target_table" +:+ dq +:+ ": " +:+ dq +:+ "cars_usa" +:+ dq +:+ "," +:+ newline +:+
      "    " +:+ dq +:+ "select_exp" +:+ dq +:+ ": [" +:+ newline +:+
      "      " +:+ dq +:+ "concat(first_name,' ',last_name) as full_name" +:+ dq +:+ "," +:+ newline +:+
      "      " +:+ dq +:+ "country" +:+ dq +:+ "," +:+ newline +:+
      "      " +:+ dq +:+ "brand" +:+ dq +:+ "," +:+ newline +:+
      "      " +:+ dq +:+ "model" +:+ dq +:+ newline +:+
      "    ]," +:+ newline +:+
      "    " +:+ dq +:+ "where_clause" +:+ dq +:+ ": [" +:+ dq +:+ "country = 'United States'" +:+ dq +:+ "]" +:+ newline +:+
      "  }" +:+ newline +:+
      "]") None;
  set_run_font example 0 (name_ "Courier New") ;;
  set_run_font example 0 (size_ (Pt 9)) ;;
  _ ← add_page_break;
  _ ← add_heading "3. Data Quality Expectations (DQE) JSON Schema" 1;
  _ ← add_paragraph "This file defines data quality rules for bronze or silver layers." None;
  create_schema_table EmptyString
    ["Field Name"; "Type"; "Mandatory"; "Description"]
    dqe_data ;;
  _ ← add_heading "Example:" 3;
  dqe_example ← add_paragraph ("{" +:+ newline +:+
      "  " +:+ dq +:+ "expect_or_drop" +:+ dq +:+ ": {" +:+ newline +:+
      "    " +:+ dq +:+ "no_rescued_data" +:+ dq +:+ ": " +:+ dq +:+ "_rescued_data IS NULL" +:+ dq +:+ "," +:+ newline +:+
      "    " +:+ dq +:+ "valid_id" +:+ dq +:+ ": " +:+ dq +:+ "id IS NOT NULL" +:+ dq +:+ newline +:+
      "  }," +:+ newline +:+
      "  " +:+ dq +:+ "expect_or_quarantine" +:+ dq +:+ ": {" +:+ newline +:+
      "    " +:+ dq +:+ "quarantine_rule" +:+ dq +:+ ": " +:+ dq +:+ "_rescued_data IS NOT NULL OR id IS NULL OR amount=0" +:+ dq +:+ newline +:+
      "  }" +:+ newline +:+
      "}") None;
  set_run_font dqe_example 0 (name_ "Courier New") ;;
  set_run_font dqe_example 0 (size_ (Pt 9)) ;;
  _ ← add_page_break;
  _ ← add_heading "Notes" 1;
  for_each notes (fun note =>
    p ← add_paragraph note (Some "List Bullet");
    set_run_font p 0 (size_ (Pt 10))) ;;
  save output_path ;;
  print ("Document saved to: " +:+ output_path).


(** ** Reading the result of a run *)

(** The blocks a run appended to the document it started from. *)
Definition appended (before after : Env) : list Block :=
  drop (length (body (doc before))) (body (doc after)).

(** [table.cell(r, c)] *)
Definition table_cell (t : Table) (r c : nat) : option Cell :=
  row ← tbl_rows t !! r; row !! c.

(** The level of a paragraph whose style is a heading style. *)
Definition heading_level (p : Paragraph) : option Z :=
  match par_style p with
  | Some s => find (fun level => String.eqb s (heading_style level))
                   [0; 1; 2; 3; 4; 5; 6; 7; 8; 9]%Z
  | None => None
  end.

Definition block_heading (b : Block) : option (Z * string) :=
  match b with
  | BlockParagraph p => (fun level => (level, paragraph_text p)) <$> heading_level p
  | BlockTable _ => None
  end.

Definition is_page_break (b : Block) : bool :=
  match b with
  | BlockParagraph p => existsb run_page_break (par_runs p)
  | BlockTable _ => false
  end.

(** The blocks up to the next heading of level [level] or above. *)
Fixpoint section_body (level : Z) (bs : list Block) : list Block :=
  match bs with
  | [] => []
  | b :: bs' =>
      match block_heading b with
      | Some (l, _) => if (l <=? level)%Z then [] else b :: section_body level bs'
      | None => b :: section_body level bs'
      end
  end.

(** The section of the document that the heading [title] opens. *)
Fixpoint section_of (title : string) (bs : list Block) : list Block :=
  match bs with
  | [] => []
  | b :: bs' =>
      match block_heading b with
      | Some (l, t) => if String.eqb t title then section_body l bs'
                       else section_of title bs'
      | None => section_of title bs'
      end
  end.

(** The blocks before the first page break. *)
Fixpoint title_page (bs : list Block) : list Block :=
  match bs with
  | [] => []
  | b :: bs' => if is_page_break b then [] else b :: title_page bs'
  end.

(** The text of the cells of a table, row by row. *)
Definition table_texts (t : Table) : list (list string) :=
  map (map cell_text) (tbl_rows t).

(** Row count, column count and cell texts of the tables of a document, in
    order. *)
Definition table_structure (d : Document) : list (nat * nat * list (list string)) :=
  map (fun t => (length (tbl_rows t), tbl_grid t, table_texts t))
      (tables_of (body d)).

(** The document saved at [path]. *)
Definition saved (path : string) (w : World) : option Document :=
  snd <$> find (fun f => String.eqb (fst f) path) (files w).

(** An environment to run the program in: an empty file system in which every
    path can be written, a clock at 0. *)
Definition env0 : Env :=
  mkEnv default_document (mkWorld 0 (fun _ => true) [] []).


(** ** Texts the library takes *)

Lemma add_items_status items : forall content,
  fst (add_items items content)
  = if forallb item_ok items then Ok tt else Raise ValueError.
Proof.
  induction items as [|item items IH]; intros content; simpl; [done|].
  destruct (item_ok item); simpl; [apply IH|done].
Qed.

Lemma add_items_all items : forall content,
  forallb item_ok items = true ->
  snd (add_items items content) = content ++ items.
Proof.
  induction items as [|item items IH]; intros content H; simpl in *.
  - by rewrite app_nil_r.
  - apply andb_prop in H as [-> H]. rewrite IH by done.
    by rewrite <- app_assoc.
Qed.

Lemma run_text_setter_status text :
  fst (run_text_setter text)
  = if accepted text then Ok tt else Raise ValueError.
Proof. apply add_items_status. Qed.

Lemma run_text_setter_content text :
  accepted text = true -> snd (run_text_setter text) = tokens EmptyString text.
Proof. intros H. unfold run_text_setter. by rewrite add_items_all. Qed.

Lemma append_nil_r s : s +:+ EmptyString = s.
Proof.
  induction s as [|a s IH]; [done|].
  change (String a (s +:+ EmptyString) = String a s). by rewrite IH.
Qed.

Lemma append_assoc s1 s2 s3 : (s1 +:+ s2) +:+ s3 = s1 +:+ s2 +:+ s3.
Proof.
  induction s1 as [|a s1 IH]; [done|].
  change (String a ((s1 +:+ s2) +:+ s3) = String a (s1 +:+ s2 +:+ s3)).
  by rewrite IH.
Qed.

Definition items_text (items : list RunItem) : string :=
  String.concat EmptyString (map item_text items).

Lemma items_text_cons item items :
  items_text (item :: items) = item_text item +:+ items_text items.
Proof.
  unfold items_text; simpl. destruct (map item_text items); [|done].
  simpl. by rewrite append_nil_r.
Qed.

Lemma items_text_flush bfr items :
  items_text (flush bfr ++ items) = bfr +:+ items_text items.
Proof. destruct bfr; [done|]. simpl flush. apply items_text_cons. Qed.

(** The elements of a text read back as the text with its carriage returns
    turned into newlines. *)
Lemma items_text_tokens text : forall bfr,
  items_text (tokens bfr text) = bfr +:+ cr_to_lf text.
Proof.
  induction text as [|a text IH]; intros bfr; simpl.
  - rewrite <- (app_nil_r (flush bfr)), items_text_flush. done.
  - destruct (N_of_ascii a =? 9)%N eqn:Htab.
    + rewrite items_text_flush, items_text_cons, IH.
      apply N.eqb_eq in Htab.
      replace (N_of_ascii a =? 13)%N with false by (rewrite Htab; done).
      f_equal. simpl. f_equal.
      rewrite <- (ascii_N_embedding a), Htab. done.
    + destruct (N_of_ascii a =? 10)%N eqn:Hlf; simpl.
      * rewrite items_text_flush, items_text_cons, IH.
        apply N.eqb_eq in Hlf.
        replace (N_of_ascii a =? 13)%N with false by (rewrite Hlf; done).
        f_equal. simpl. f_equal.
        rewrite <- (ascii_N_embedding a), Hlf. done.
      * destruct (N_of_ascii a =? 13)%N eqn:Hcr.
        -- rewrite items_text_flush, items_text_cons, IH. done.
        -- rewrite IH, append_assoc. done.
Qed.

Lemma run_text_assigned text font :
  accepted text = true ->
  run_text (mkRun (snd (run_text_setter text)) font false) = cr_to_lf text.
Proof.
  intros H. unfold run_text; simpl. rewrite run_text_setter_content by done.
  apply (items_text_tokens text EmptyString).
Qed.

(** A text without carriage returns reads back as it is. *)
Lemma cr_to_lf_id text :
  forallb (fun a => negb (N_of_ascii a =? 13)%N) (list_ascii_of_string text) = true ->
  cr_to_lf text = text.
Proof.
  induction text as [|a text IH]; simpl; [done|].
  intros H. apply andb_prop in H as [Ha H].
  destruct (N_of_ascii a =? 13)%N; [done|]. by rewrite IH.
Qed.

(** ** What the loops of [create_schema_table] leave in a table *)

(** The cell a header is written into when the library takes its text:
    lines 45-54. *)
Definition header_cell (header : string) (cell : Cell) : Cell :=
  mkCell
    [mkParagraph None None
       [mkRun (snd (run_text_setter header))
              (mkFont (Some true) None (Some (Pt 10)) (Some (mkRGB 255 255 255)) None)
              false]]
    (cell_shd cell ++ ["0070C0"]).

(** The cell a value is written into when the library takes its text:
    lines 60-63. *)
Definition body_cell (cell_data : PyVal) (cell : Cell) : Cell :=
  mkCell
    [mkParagraph None None
       [mkRun (snd (run_text_setter (str cell_data)))
              (mkFont None None (Some (Pt 9)) None None) false]]
    (cell_shd cell).

Section WriteCells.
Context {A : Type} (text_of : A -> string) (g : A -> Cell -> Cell).

(** The cells of a row after the values [xs] were written from column [k]
    on; a column the row does not have is left out, and writing stops at
    the first value whose text the library refuses, with the cell as the
    refused assignment left it. *)
Fixpoint write_cells (k : nat) (xs : list A) (cells : list Cell) : list Cell :=
  match xs with
  | [] => cells
  | x :: xs' =>
      if accepted (text_of x) then write_cells (S k) xs' (alter (g x) k cells)
      else alter (text_cell (text_of x)) k cells
  end.

(** How writing the values [xs] from column [k] on into a row of [n] cells
    ends. *)
Fixpoint cells_status (k : nat) (xs : list A) (n : nat) : result unit :=
  match xs with
  | [] => Ok tt
  | x :: xs' =>
      if Nat.leb n k then Raise IndexError
      else if accepted (text_of x) then cells_status (S k) xs' n
           else Raise ValueError
  end.

Lemma length_write_cells xs : forall k cells,
  length (write_cells k xs cells) = length cells.
Proof.
  induction xs as [|x xs IH]; intros k cells; simpl; [done|].
  destruct (accepted (text_of x)); [rewrite IH|]; apply length_alter.
Qed.

Lemma alter_ge {B} (f : B -> B) (l : list B) k : length l <= k -> alter f k l = l.
Proof.
  intros Hk. apply list_eq; intros j. destruct (decide (k = j)) as [->|Hne].
  - rewrite list_lookup_alter_eq.
    by rewrite (proj2 (lookup_ge_None l j)).
  - by rewrite list_lookup_alter_ne.
Qed.

Lemma write_cells_ge xs : forall k cells,
  length cells <= k -> write_cells k xs cells = cells.
Proof.
  induction xs as [|x xs IH]; intros k cells Hk; simpl; [done|].
  destruct (accepted (text_of x)).
  - rewrite IH by (rewrite length_alter; lia). by apply alter_ge.
  - by apply alter_ge.
Qed.

Lemma lookup_write_cells_lt xs : forall k cells j,
  j < k -> write_cells k xs cells !! j = cells !! j.
Proof.
  induction xs as [|x xs IH]; intros k cells j Hj; simpl; [done|].
  destruct (accepted (text_of x)); [rewrite IH by lia|];
    apply list_lookup_alter_ne; lia.
Qed.

(** A value is in its cell when the library took its text and the texts of
    the values before it. *)
Lemma lookup_write_cells xs : forall k cells i x,
  xs !! i = Some x ->
  forallb (fun y => accepted (text_of y)) (take (S i) xs) = true ->
  write_cells k xs cells !! (k + i) = g x <$> cells !! (k + i).
Proof.
  induction xs as [|y xs IH]; intros k cells i x Hx Hok; [done|].
  simpl in Hok. apply andb_prop in Hok as [Hy Hok]. simpl. rewrite Hy.
  destruct i as [|i]; simpl in *.
  - injection Hx as ->. replace (k + 0) with k by lia.
    rewrite lookup_write_cells_lt by lia.
    apply list_lookup_alter_eq.
  - replace (k + S i) with (S k + i) by lia.
    rewrite (IH _ _ _ _ Hx Hok). f_equal. apply list_lookup_alter_ne. lia.
Qed.

Lemma lookup_write_cells_past xs : forall k cells j,
  k + length xs <= j -> write_cells k xs cells !! j = cells !! j.
Proof.
  induction xs as [|x xs IH]; intros k cells j Hj; simpl in *; [done|].
  destruct (accepted (text_of x)); [rewrite IH by lia|];
    apply list_lookup_alter_ne; lia.
Qed.

Lemma cells_status_accepted xs : forall k n,
  forallb (fun y => accepted (text_of y)) xs = true ->
  k <= n ->
  cells_status k xs n
  = if Nat.leb (k + length xs) n then Ok tt else Raise IndexError.
Proof.
  induction xs as [|x xs IH]; intros k n Hok Hk; simpl in *.
  - by rewrite (proj2 (Nat.leb_le _ _)) by lia.
  - apply andb_prop in Hok as [-> Hok].
    destruct (Nat.leb n k) eqn:Hnk.
    + apply Nat.leb_le in Hnk. by rewrite (proj2 (Nat.leb_gt _ _)) by lia.
    + apply Nat.leb_gt in Hnk. rewrite IH by (done || lia).
      by replace (S k + length xs) with (k + S (length xs)) by lia.
Qed.

Lemma cells_status_Ok xs : forall k n,
  cells_status k xs n = Ok tt ->
  forallb (fun y => accepted (text_of y)) xs = true /\ (xs = [] \/ k + length xs <= n).
Proof.
  induction xs as [|x xs IH]; intros k n H; simpl in *; [auto|].
  destruct (Nat.leb n k) eqn:Hnk; [done|]. apply Nat.leb_gt in Hnk.
  destruct (accepted (text_of x)); [|done].
  destruct (IH _ _ H) as [Hok [->|Hlen]]; simpl; split; auto; right; lia.
Qed.

(** The rows of a table with [n] columns after the rows of values [rows]
    were written from row [k] on: writing stops at the first row of values
    that is not written to its end. *)
Fixpoint write_rows (n k : nat) (rows : list (list A))
    (trs : list (list Cell)) : list (list Cell) :=
  match rows with
  | [] => trs
  | row_data :: rows' =>
      let trs' := alter (write_cells 0 row_data) k trs in
      match cells_status 0 row_data n with
      | Ok _ => write_rows n (S k) rows' trs'
      | Raise _ => trs'
      end
  end.

(** How writing the rows of values ends. *)
Fixpoint rows_status (n : nat) (rows : list (list A)) : result unit :=
  match rows with
  | [] => Ok tt
  | row_data :: rows' =>
      match cells_status 0 row_data n with
      | Ok _ => rows_status n rows'
      | Raise x => Raise x
      end
  end.

Lemma length_write_rows n rows : forall k trs,
  length (write_rows n k rows trs) = length trs.
Proof.
  induction rows as [|r rows IH]; intros k trs; simpl; [done|].
  destruct (cells_status 0 r n); [rewrite IH|]; apply length_alter.
Qed.

Lemma Forall_alter_write_cells (n k : nat) row_data trs :
  Forall (fun tr => length tr = n) trs ->
  Forall (fun tr => length tr = n) (alter (write_cells 0 row_data) k trs).
Proof.
  intros H. apply Forall_alter; [done|].
  intros tr _ <-. apply length_write_cells.
Qed.

Lemma Forall_write_rows n rows : forall k trs,
  Forall (fun tr => length tr = n) trs ->
  Forall (fun tr => length tr = n) (write_rows n k rows trs).
Proof.
  induction rows as [|r rows IH]; intros k trs H; simpl; [done|].
  destruct (cells_status 0 r n); [apply IH|]; by apply Forall_alter_write_cells.
Qed.

Lemma lookup_write_rows_lt n rows : forall k trs j,
  j < k -> write_rows n k rows trs !! j = trs !! j.
Proof.
  induction rows as [|r rows IH]; intros k trs j Hj; simpl; [done|].
  destruct (cells_status 0 r n); [rewrite IH by lia|];
    apply list_lookup_alter_ne; lia.
Qed.

(** A row of values is written when all rows of values before it were
    written to their end. *)
Lemma lookup_write_rows n rows : forall k trs i row_data,
  rows !! i = Some row_data ->
  rows_status n (take i rows) = Ok tt ->
  write_rows n k rows trs !! (k + i)
  = write_cells 0 row_data <$> trs !! (k + i).
Proof.
  induction rows as [|r rows IH]; intros k trs i row_data Hi Hfit; [done|].
  destruct i as [|i]; simpl in *.
  - injection Hi as ->. replace (k + 0) with k by lia.
    destruct (cells_status 0 row_data n).
    + rewrite lookup_write_rows_lt by lia. apply list_lookup_alter_eq.
    + apply list_lookup_alter_eq.
  - destruct (cells_status 0 r n); [|done].
    replace (k + S i) with (S k + i) by lia.
    rewrite (IH _ _ _ _ Hi Hfit). f_equal. apply list_lookup_alter_ne. lia.
Qed.

(** Whatever was written, the cells of a row past the entries of its row
    of values are the cells the row had. *)
Lemma lookup_write_rows_past n rows : forall k trs i row_data tr j,
  rows !! i = Some row_data ->
  trs !! (k + i) = Some tr ->
  length row_data <= j ->
  exists tr', write_rows n k rows trs !! (k + i) = Some tr' /\ tr' !! j = tr !! j.
Proof.
  induction rows as [|r rows IH]; intros k trs i row_data tr j Hi Htr Hj; [done|].
  destruct i as [|i]; simpl in *.
  - injection Hi as ->. replace (k + 0) with k in * by lia.
    exists (write_cells 0 row_data tr). split.
    + destruct (cells_status 0 row_data n).
      * rewrite lookup_write_rows_lt by lia.
        by rewrite list_lookup_alter_eq, Htr.
      * by rewrite list_lookup_alter_eq, Htr.
    + apply lookup_write_cells_past. simpl. lia.
  - replace (k + S i) with (S k + i) in * by lia.
    destruct (cells_status 0 r n).
    + apply (IH _ _ _ row_data); [done| |done].
      rewrite list_lookup_alter_ne by lia. done.
    + exists tr. split; [|done].
      rewrite list_lookup_alter_ne by lia. done.
Qed.

(** Once a row of values was not written to its end, the rows below it are
    not written. *)
Lemma lookup_write_rows_after n rows : forall s trs k bad x i,
  rows !! k = Some bad ->
  cells_status 0 bad n = Raise x ->
  k < i ->
  write_rows n s rows trs !! (s + i) = trs !! (s + i).
Proof.
  induction rows as [|r rows IH]; intros s trs k bad x i Hk Hbad Hi; [done|].
  destruct k as [|k]; simpl in *.
  - injection Hk as ->. rewrite Hbad. apply list_lookup_alter_ne. lia.
  - destruct i as [|i]; [lia|].
    replace (s + S i) with (S s + i) by lia.
    destruct (cells_status 0 r n).
    + rewrite (IH (S s) _ k bad x i) by (done || lia).
      apply list_lookup_alter_ne. lia.
    + apply list_lookup_alter_ne. lia.
Qed.

(** Writing keeps what holds of every cell and is kept by the two ways a
    cell is written. *)
Lemma Forall_write_cells (P : Cell -> Prop) xs :
  (forall x c, P c -> P (g x c)) ->
  (forall x c, P c -> P (text_cell (text_of x) c)) ->
  forall k cells, Forall P cells -> Forall P (write_cells k xs cells).
Proof.
  intros Hg Hf. induction xs as [|x xs IH]; intros k cells H; simpl; [done|].
  destruct (accepted (text_of x)).
  - apply IH, Forall_alter; [done|]. intros c _. apply Hg.
  - apply Forall_alter; [done|]. intros c _. apply Hf.
Qed.

Lemma lookup_write_rows_Forall (P : Cell -> Prop) n rows :
  (forall x c, P c -> P (g x c)) ->
  (forall x c, P c -> P (text_cell (text_of x) c)) ->
  forall s trs r tr tr',
    trs !! r = Some tr ->
    Forall P tr ->
    write_rows n s rows trs !! r = Some tr' ->
    Forall P tr'.
Proof.
  intros Hg Hf.
  induction rows as [|row rows IH]; intros s trs r tr tr' Hr HP Hr'; simpl in *.
  - by replace tr' with tr by congruence.
  - assert (Halt : exists tr1, alter (write_cells 0 row) s trs !! r = Some tr1
                               /\ Forall P tr1).
    { destruct (decide (s = r)) as [->|Hne].
      - exists (write_cells 0 row tr). rewrite list_lookup_alter_eq, Hr.
        split; [done|]. by apply Forall_write_cells.
      - exists tr. by rewrite list_lookup_alter_ne. }
    destruct Halt as (tr1 & Htr1 & HP1).
    destruct (cells_status 0 row n).
    + by apply (IH (S s) _ r tr1 tr' Htr1 HP1).
    + by replace tr' with tr1 by congruence.
Qed.

End WriteCells.

(** ** Running the table operations *)

(** The environment whose document ends with the table [t]. *)
Definition table_env (e : Env) (pre : list Block) (t : Table) : Env :=
  set_body (fun _ => pre ++ [BlockTable t]) e.

(** The environment whose document ends with the paragraph [p]. *)
Definition paragraph_env (e : Env) (pre : list Block) (p : Paragraph) : Env :=
  set_body (fun _ => pre ++ [BlockParagraph p]) e.

Lemma set_rows_id t : set_rows (tbl_rows t) t = t.
Proof. by destruct t. Qed.

Lemma insert_as_alter {A} (f : A -> A) (l : list A) i x :
  l !! i = Some x -> <[i := f x]> l = alter f i l.
Proof.
  intros Hi. apply list_eq; intros j. destruct (decide (i = j)) as [<-|Hne].
  - rewrite list_lookup_insert_eq by (by eapply lookup_lt_Some).
    by rewrite list_lookup_alter_eq, Hi.
  - by rewrite list_lookup_insert_ne, list_lookup_alter_ne.
Qed.

Lemma insert_last {A} (l : list A) (x y : A) :
  <[length l := y]> (l ++ [x]) = l ++ [y].
Proof. replace (length l) with (length l + 0) by lia. by rewrite insert_app_r. Qed.

(** The body of the header loop and of the inner loop over a row of
    values, as functions of the cells handle. *)
Definition header_step (hdr_cells : nat * nat) (i : nat) (header : string) : M unit :=
  set_cell_text hdr_cells i header ;;
  for_runs_of_cell hdr_cells i (fun font =>
    color_rgb_ (mkRGB 255 255 255) (size_ (Pt 10) (bold_ true font))) ;;
  tcPr_append_shd hdr_cells i "0070C0".

Definition body_step (row_cells : nat * nat) (col_idx : nat) (cell_data : PyVal) : M unit :=
  set_cell_text row_cells col_idx (str cell_data) ;;
  for_runs_of_cell row_cells col_idx (size_ (Pt 9)).

(** A loop body [step] writes [g x] into the cell it is run on when the
    library takes the text of [x], and raises ValueError with the cell as
    the refused assignment left it when not. *)
Definition fills {A} (e : Env) (pre : list Block)
    (step : nat * nat -> nat -> A -> M unit)
    (text_of : A -> string) (g : A -> Cell -> Cell) : Prop :=
  forall r c x t row,
    tbl_rows t !! r = Some row ->
    step (length pre, r) c x (table_env e pre t)
    = match row !! c with
      | Some _ =>
          if accepted (text_of x)
          then (Ok tt,
                table_env e pre (set_rows (<[r := alter (g x) c row]> (tbl_rows t)) t))
          else (Raise ValueError,
                table_env e pre
                  (set_rows (<[r := alter (text_cell (text_of x)) c row]> (tbl_rows t)) t))
      | None => (Raise IndexError, table_env e pre t)
      end.

Section TableOps.
Variables (e : Env) (pre : list Block).
Abbreviation E := (table_env e pre).
Abbreviation h := (length pre).

Lemma with_table_last f t :
  with_table h f (E t) = (fst (f t), E (snd (f t))).
Proof.
  unfold with_table, table_env; simpl.
  rewrite list_lookup_middle by done.
  unfold set_body; simpl. by rewrite insert_last.
Qed.

Lemma with_paragraph_last f p :
  with_paragraph h f (paragraph_env e pre p)
  = (fst (f p), paragraph_env e pre (snd (f p))).
Proof.
  unfold with_paragraph, paragraph_env; simpl.
  rewrite list_lookup_middle by done.
  unfold set_body; simpl. by rewrite insert_last.
Qed.

Lemma table_row_cells_last r t :
  table_row_cells h r (E t)
  = (match tbl_rows t !! r with
     | Some _ => Ok (h, r)
     | None => Raise IndexError
     end, E t).
Proof.
  unfold table_row_cells, table_env; simpl.
  rewrite list_lookup_middle by done.
  by destruct (tbl_rows t !! r).
Qed.

Lemma with_cell_last r c f t row :
  tbl_rows t !! r = Some row ->
  with_cell (h, r) c f (E t)
  = match row !! c with
    | Some cell =>
        (fst (f cell),
         E (set_rows (<[r := alter (fun cell => snd (f cell)) c row]> (tbl_rows t)) t))
    | None => (Raise IndexError, E t)
    end.
Proof.
  intros Hr. unfold with_cell; simpl. rewrite with_table_last.
  unfold update_cell. rewrite Hr.
  destruct (row !! c) as [cell|] eqn:Hc; [|done]. simpl.
  by rewrite (insert_as_alter (fun cell => snd (f cell)) _ _ _ Hc).
Qed.

Lemma set_rows_row_twice r row1 row2 t :
  set_rows (<[r := row2]> (tbl_rows (set_rows (<[r := row1]> (tbl_rows t)) t)))
           (set_rows (<[r := row1]> (tbl_rows t)) t)
  = set_rows (<[r := row2]> (tbl_rows t)) t.
Proof. unfold set_rows; simpl. by rewrite list_insert_insert_eq. Qed.

Lemma lookup_set_row r row row1 t :
  tbl_rows t !! r = Some row ->
  tbl_rows (set_rows (<[r := row1]> (tbl_rows t)) t) !! r = Some row1.
Proof.
  intros Hr; simpl. apply list_lookup_insert_eq. by eapply lookup_lt_Some.
Qed.

Lemma header_step_fills : fills e pre header_step (fun header => header) header_cell.
Proof.
  intros r c header t row Hr. unfold header_step, set_cell_text,
    for_runs_of_cell, tcPr_append_shd, mbind, M_bind.
  rewrite (with_cell_last _ _ _ _ _ Hr).
  destruct (row !! c) as [cell|] eqn:Hc; [|done].
  cbn [fst snd]. rewrite run_text_setter_status.
  destruct (accepted header); [|done].
  rewrite (with_cell_last _ _ _ _ _ (lookup_set_row _ _ _ _ Hr)).
  rewrite list_lookup_alter_eq, Hc; simpl fmap; cbv iota beta.
  rewrite set_rows_row_twice.
  rewrite (with_cell_last _ _ _ _ _ (lookup_set_row _ _ _ _ Hr)).
  rewrite !list_lookup_alter_eq, Hc; simpl fmap; cbv iota beta.
  rewrite set_rows_row_twice. cbn [fst snd].
  do 4 f_equal. rewrite !list_alter_alter_eq.
  apply list_alter_ext; [|done]. intros cell' _. reflexivity.
Qed.

Lemma body_step_fills : fills e pre body_step str body_cell.
Proof.
  intros r c v t row Hr. unfold body_step, set_cell_text,
    for_runs_of_cell, mbind, M_bind.
  rewrite (with_cell_last _ _ _ _ _ Hr).
  destruct (row !! c) as [cell|] eqn:Hc; [|done].
  cbn [fst snd]. rewrite run_text_setter_status.
  destruct (accepted (str v)); [|done].
  rewrite (with_cell_last _ _ _ _ _ (lookup_set_row _ _ _ _ Hr)).
  rewrite list_lookup_alter_eq, Hc; simpl fmap; cbv iota beta.
  rewrite set_rows_row_twice. cbn [fst snd].
  do 4 f_equal. rewrite !list_alter_alter_eq.
  apply list_alter_ext; [|done]. intros cell' _. reflexivity.
Qed.

(** A loop over the enumerated values of one row. *)
Lemma fill_row_loop {A} step text_of (g : A -> Cell -> Cell)
    (Hstep : fills e pre step text_of g) xs :
  forall k r t row,
    tbl_rows t !! r = Some row ->
    for_each (enumerate k xs) (fun '(i, x) => step (h, r) i x) (E t)
    = (cells_status text_of k xs (length row),
       E (set_rows (<[r := write_cells text_of g k xs row]> (tbl_rows t)) t)).
Proof.
  induction xs as [|x xs IH]; intros k r t row Hr; simpl.
  - by rewrite list_insert_id, set_rows_id.
  - unfold mbind, M_bind. rewrite (Hstep _ _ _ _ _ Hr).
    destruct (row !! k) as [cell|] eqn:Hc.
    + apply lookup_lt_Some in Hc.
      rewrite (proj2 (Nat.leb_gt _ _)) by lia.
      destruct (accepted (text_of x)); [|done].
      rewrite (IH (S k) r _ (alter (g x) k row))
        by (eauto using lookup_set_row).
      by rewrite set_rows_row_twice, length_alter.
    + apply lookup_ge_None in Hc.
      rewrite (proj2 (Nat.leb_le _ _)) by lia.
      change (if accepted (text_of x)
              then write_cells text_of g (S k) xs (alter (g x) k row)
              else alter (text_cell (text_of x)) k row)
        with (write_cells text_of g k (x :: xs) row).
      rewrite write_cells_ge by lia.
      by rewrite list_insert_id, set_rows_id.
Qed.

(** The loop over the enumerated rows of values, on a table whose rows
    all have [n] cells. *)
Lemma body_rows_loop n rows :
  forall k t,
    Forall (fun tr => length tr = n) (tbl_rows t) ->
    k + length rows <= length (tbl_rows t) ->
    for_each (enumerate k rows) (fun '(row_idx, row_data) =>
      row_cells ← table_row_cells h row_idx;
      for_each (enumerate 0 row_data) (fun '(col_idx, cell_data) =>
        body_step row_cells col_idx cell_data)) (E t)
    = (rows_status str n rows,
       E (set_rows (write_rows str body_cell n k rows (tbl_rows t)) t)).
Proof.
  induction rows as [|row_data rows IH]; intros k t Hn Hk; simpl.
  - by rewrite set_rows_id.
  - unfold mbind, M_bind. rewrite table_row_cells_last.
    destruct (lookup_lt_is_Some_2 (tbl_rows t) k) as [tr Htr]; [simpl in Hk; lia|].
    rewrite Htr.
    rewrite (fill_row_loop body_step str body_cell body_step_fills
               row_data 0 k t tr Htr).
    rewrite (insert_as_alter _ _ _ _ Htr).
    rewrite (Forall_lookup_1 _ _ _ _ Hn Htr).
    destruct (cells_status str 0 row_data n); [|done].
    rewrite IH; simpl.
    + done.
    + by apply Forall_alter_write_cells.
    + rewrite length_alter. simpl in Hk. lia.
Qed.

End TableOps.

(** ** What one call of [create_schema_table] does *)

(** What lines 31-33 append for a title that is true: the heading of
    level 2 in the accent color when the library takes the title, and the
    paragraph as the refused assignment left it, without a style, when
    not. *)
Definition heading_blocks (title : string) : list Block :=
  if truthy title then
    [BlockParagraph
       (if accepted title
        then mkParagraph (Some "Heading 2") None
               [mkRun (snd (run_text_setter title))
                      (mkFont None None None (Some (mkRGB 0 51 102)) None) false]
        else mkParagraph None None
               [mkRun (snd (run_text_setter title)) default_font false])]
  else [].

(** How a call ends. *)
Definition call_status (title : string) (headers : list string)
    (rows : list (list PyVal)) : result unit :=
  if accepted title then
    match cells_status (fun header => header) 0 headers (length headers) with
    | Ok _ => rows_status str (length headers) rows
    | Raise x => Raise x
    end
  else Raise ValueError.

(** The table a call leaves in the document when it gets as far as making
    it. *)
Definition rendered_table (headers : list string) (rows : list (list PyVal)) : Table :=
  mkTable (Some "Light Grid Accent 1")
    [map (fun border_name => mkBorder border_name "single" "4" "0" "000000")
         border_names]
    (length headers)
    (let trs :=
       <[0 := write_cells (fun header => header) header_cell 0 headers
                (replicate (length headers) new_cell)]>
         (replicate (length rows + 1) (replicate (length headers) new_cell)) in
     match cells_status (fun header => header) 0 headers (length headers) with
     | Ok _ => write_rows str body_cell (length headers) 1 rows trs
     | Raise _ => trs
     end).

(** The paragraph of line 65, reached when no exception was raised. *)
Definition spacing (status : result unit) : list Block :=
  match status with
  | Ok _ => [BlockParagraph (mkParagraph None None [])]
  | Raise _ => []
  end.

(** The blocks a call appends. *)
Definition call_blocks (title : string) (headers : list string)
    (rows : list (list PyVal)) : list Block :=
  heading_blocks title
  ++ (if accepted title
      then BlockTable (rendered_table headers rows)
             :: spacing (call_status title headers rows)
      else []).

Lemma add_paragraph_empty e :
  add_paragraph EmptyString None e
  = (Ok (length (body (doc e))),
     set_body (fun bs => bs ++ [BlockParagraph (mkParagraph None None [])]) e).
Proof. done. Qed.

(** [add_paragraph] for a text that is true: the paragraph is appended with
    a run for the text, and gets its style only when the library took the
    text. *)
Lemma add_paragraph_run text style e :
  truthy text = true ->
  add_paragraph text style e
  = (if accepted text then Ok (length (body (doc e))) else Raise ValueError,
     set_body
       (fun bs =>
          bs ++ [BlockParagraph
                   (mkParagraph (if accepted text then style else None) None
                      [mkRun (snd (run_text_setter text)) default_font false])])
       e).
Proof.
  intros Ht. destruct e as [[ct ca bs] w].
  unfold add_paragraph, mbind, M_bind, append_block.
  cbn [doc body set_body core_title core_author world]. rewrite Ht.
  change (set_body (fun bs0 => bs0 ++ [BlockParagraph ?p]) ?e0)
    with (paragraph_env e0 bs p).
  unfold add_run. rewrite with_paragraph_last. rewrite Ht. cbn [fst snd].
  rewrite run_text_setter_status.
  destruct (accepted text); [|done].
  destruct style as [name|]; unfold set_paragraph_style, mret, M_ret;
    [rewrite with_paragraph_last|]; done.
Qed.

Lemma heading_part title e :
  (if truthy title then
     heading ← add_heading title 2;
     set_run_font heading 0 (color_rgb_ (mkRGB 0 51 102))
   else mret tt) e
  = (if accepted title then Ok tt else Raise ValueError,
     set_body (fun bs => bs ++ heading_blocks title) e).
Proof.
  unfold heading_blocks. destruct (truthy title) eqn:Ht.
  - unfold add_heading.
    change ((0 <=? 2) && (2 <=? 9))%Z with true. cbv iota.
    unfold mbind, M_bind. rewrite (add_paragraph_run _ _ _ Ht).
    destruct (accepted title); [|done].
    change (set_body (fun bs => bs ++ [BlockParagraph ?p]) e)
      with (paragraph_env e (body (doc e)) p).
    unfold set_run_font. rewrite with_paragraph_last. done.
  - destruct title; [|done]. destruct e as [[ct ca bs] w].
    unfold mret, M_ret, set_body; simpl. by rewrite app_nil_r.
Qed.

Lemma create_schema_table_run title headers rows e :
  create_schema_table title headers rows e
  = (call_status title headers rows,
     set_body (fun bs => bs ++ call_blocks title headers rows) e).
Proof.
  unfold create_schema_table, call_blocks, call_status.
  unfold mbind at 1, M_bind at 1. rewrite heading_part.
  destruct (accepted title).
  2: { unfold set_body; simpl. by rewrite app_nil_r. }
  unfold mbind at 1, M_bind at 1.
  unfold add_table, append_block.
  change (set_body (fun bs => bs ++ [BlockTable ?t]) (set_body (fun bs => bs ++ ?hb) e))
    with (table_env e (body (doc e) ++ hb) t).
  change (length (body (doc (set_body (fun bs => bs ++ ?hb) e))))
    with (length (body (doc e) ++ hb)).
  set (pre := body (doc e) ++ heading_blocks title).
  unfold mbind at 1, M_bind at 1, set_table_style. rewrite with_table_last.
  unfold mbind at 1, M_bind at 1, add_table_borders, tblPr_append_borders.
  rewrite with_table_last.
  unfold mbind at 1, M_bind at 1. rewrite table_row_cells_last.
  simpl tbl_rows. rewrite Nat.add_1_r. simpl lookup. cbv iota beta.
  unfold mbind at 1, M_bind at 1.
  cbn [fst snd tbl_style tbl_borders tbl_grid tbl_rows new_table app].
  set (t1 := mkTable _ _ _ _).
  change (for_each (enumerate 0 headers) _ (table_env e pre t1))
    with (for_each (enumerate 0 headers)
            (fun '(i, header) => header_step (length pre, 0) i header)
            (table_env e pre t1)).
  rewrite (fill_row_loop e pre header_step (fun header => header) header_cell
             (header_step_fills e pre)
             headers 0 0 t1 (replicate (length headers) new_cell) eq_refl).
  rewrite length_replicate.
  set (t2 := set_rows _ t1).
  destruct (cells_status (fun header => header) 0 headers (length headers))
    eqn:Hhdr.
  2: { assert (Ht : rendered_table headers rows = t2)
         by (unfold rendered_table; rewrite Hhdr, Nat.add_1_r; done).
       rewrite Ht. unfold table_env, set_body; simpl. subst pre.
       by rewrite <- !app_assoc. }
  assert (Ht : rendered_table headers rows
               = set_rows (write_rows str body_cell (length headers) 1 rows
                             (tbl_rows t2)) t2)
    by (unfold rendered_table; rewrite Hhdr, Nat.add_1_r; done).
  rewrite Ht.
  assert (Hn : Forall (fun tr => length tr = length headers) (tbl_rows t2)).
  { apply Forall_insert; [by apply Forall_replicate, length_replicate|].
    by rewrite length_write_cells, length_replicate. }
  change (fun '(row_idx, row_data) => _)
    with (fun '(row_idx, row_data) =>
            row_cells ← table_row_cells (length pre) row_idx;
            for_each (enumerate 0 row_data) (fun '(col_idx, cell_data) =>
              body_step row_cells col_idx cell_data)).
  unfold mbind at 1, M_bind at 1.
  rewrite (body_rows_loop e pre (length headers) rows 1 t2 Hn)
    by (subst t2 t1; simpl; rewrite length_replicate; lia).
  unfold spacing, table_env.
  destruct (rows_status str (length headers) rows) as [[]|x].
  - unfold mbind, M_bind. rewrite add_paragraph_empty.
    unfold mret, M_ret, set_body; simpl.
    subst pre. by rewrite <- !app_assoc.
  - unfold set_body; simpl. subst pre. by rewrite <- !app_assoc.
Qed.

(** ** The table formatter: facts about every call *)

(** No row of values has more entries than there are headers. *)
Definition rows_fit (headers : list string) (rows : list (list PyVal)) : bool :=
  forallb (fun r => Nat.leb (length r) (length headers)) rows.

(** The library takes the text of every value. *)
Definition values_accepted (rows : list (list PyVal)) : bool :=
  forallb (forallb (fun v => accepted (str v))) rows.

Lemma forallb_take {A} (f : A -> bool) xs : forall i,
  forallb f xs = true -> forallb f (take i xs) = true.
Proof.
  induction xs as [|x xs IH]; intros [|i] H; simpl in *; try done.
  apply andb_prop in H as [-> H]. by apply IH.
Qed.

Lemma write_cells_replicate {A} (text_of : A -> string) (g : A -> Cell -> Cell) xs c :
  forallb (fun y => accepted (text_of y)) xs = true ->
  write_cells text_of g 0 xs (replicate (length xs) c) = map (fun x => g x c) xs.
Proof.
  intros Hok. apply list_eq; intros i. destruct (xs !! i) as [x|] eqn:Hx.
  - rewrite (lookup_write_cells text_of g xs 0 _ i x Hx); simpl.
    + rewrite lookup_replicate_2 by (by eapply lookup_lt_Some).
      by rewrite list_lookup_fmap, Hx.
    + by apply forallb_take.
  - apply lookup_ge_None in Hx.
    rewrite (proj2 (lookup_ge_None _ i))
      by (by rewrite length_write_cells, length_replicate).
    symmetry. apply lookup_ge_None. by rewrite length_map.
Qed.

(** Writing the headers into the header row never indexes out of range. *)
Lemma headers_status {A} (text_of : A -> string) xs : forall k n,
  k + length xs <= n ->
  cells_status text_of k xs n
  = if forallb (fun y => accepted (text_of y)) xs then Ok tt else Raise ValueError.
Proof.
  induction xs as [|x xs IH]; intros k n Hn; simpl in *; [done|].
  rewrite (proj2 (Nat.leb_gt _ _)) by lia.
  destruct (accepted (text_of x)); [|done]. apply IH. lia.
Qed.

Lemma header_cells_status headers :
  cells_status (fun header => header) 0 headers (length headers)
  = if forallb accepted headers then Ok tt else Raise ValueError.
Proof. by rewrite headers_status by (simpl; lia). Qed.

Lemma rows_status_accepted n rows :
  forallb (forallb (fun v => accepted (str v))) rows = true ->
  rows_status str n rows
  = if forallb (fun r => Nat.leb (length r) n) rows then Ok tt else Raise IndexError.
Proof.
  induction rows as [|r rows IH]; simpl; [done|].
  intros H. apply andb_prop in H as [Hr H].
  rewrite (cells_status_accepted str r 0 n Hr) by lia. simpl.
  destruct (Nat.leb (length r) n); [by apply IH|done].
Qed.

Lemma rows_status_Ok n rows :
  rows_status str n rows = Ok tt ->
  forallb (forallb (fun v => accepted (str v))) rows = true
  /\ forallb (fun r => Nat.leb (length r) n) rows = true.
Proof.
  induction rows as [|r rows IH]; simpl; [done|].
  destruct (cells_status str 0 r n) as [[]|x] eqn:Hr; [|done].
  intros H. destruct (IH H) as [-> ->].
  destruct (cells_status_Ok str r 0 n Hr) as [-> Hlen].
  split; [done|]. rewrite andb_true_r. apply Nat.leb_le.
  destruct Hlen as [->|Hlen]; simpl in *; lia.
Qed.

Lemma rows_status_take n rows i :
  rows_status str n rows = Ok tt -> rows_status str n (take i rows) = Ok tt.
Proof.
  revert i. induction rows as [|r rows IH]; intros [|i]; simpl; try done.
  destruct (cells_status str 0 r n); [apply IH|done].
Qed.

Lemma call_status_eq title headers rows :
  call_status title headers rows
  = if accepted title
    then if forallb accepted headers
         then rows_status str (length headers) rows
         else Raise ValueError
    else Raise ValueError.
Proof.
  unfold call_status. rewrite header_cells_status.
  by destruct (accepted title), (forallb accepted headers).
Qed.

(** A call completes exactly when the library takes the title, the headers
    and the values, and no row of values is too long. *)
Lemma call_status_Ok title headers rows :
  call_status title headers rows = Ok tt
  <-> accepted title = true /\ forallb accepted headers = true
      /\ values_accepted rows = true /\ rows_fit headers rows = true.
Proof.
  rewrite call_status_eq. unfold values_accepted, rows_fit. split.
  - destruct (accepted title); [|done].
    destruct (forallb accepted headers); [|done].
    intros H. by destruct (rows_status_Ok _ _ H) as [-> ->].
  - intros (-> & -> & Hv & Hfit). rewrite rows_status_accepted by done.
    by rewrite Hfit.
Qed.

Lemma rows_fit_Forall headers rows :
  rows_fit headers rows = true
  <-> Forall (fun row_data => length row_data <= length headers) rows.
Proof.
  unfold rows_fit. induction rows as [|r rows IH]; simpl.
  - split; [constructor|done].
  - rewrite andb_true_iff, Forall_cons, IH, Nat.leb_le. done.
Qed.

Lemma rows_fit_Exists headers rows :
  rows_fit headers rows = false
  <-> Exists (fun row_data => length headers < length row_data) rows.
Proof.
  unfold rows_fit. induction rows as [|r rows IH]; simpl.
  - split; [done|]. by rewrite Exists_nil.
  - rewrite andb_false_iff, Exists_cons, IH, Nat.leb_gt. done.
Qed.

Lemma status_create_schema_table title headers rows e :
  fst (create_schema_table title headers rows e) = call_status title headers rows.
Proof. by rewrite create_schema_table_run. Qed.

Lemma appended_create_schema_table title headers rows e :
  appended e (snd (create_schema_table title headers rows e))
  = call_blocks title headers rows.
Proof.
  rewrite create_schema_table_run. unfold appended, set_body; simpl.
  apply drop_app_length.
Qed.

Lemma tables_of_app bs1 bs2 :
  tables_of (bs1 ++ bs2) = tables_of bs1 ++ tables_of bs2.
Proof. apply omap_app. Qed.

Lemma tables_of_heading_blocks title : tables_of (heading_blocks title) = [].
Proof. unfold heading_blocks. by destruct (truthy title). Qed.

Lemma tables_of_call title headers rows :
  tables_of (call_blocks title headers rows)
  = if accepted title then [rendered_table headers rows] else [].
Proof.
  unfold call_blocks. rewrite tables_of_app, tables_of_heading_blocks.
  destruct (accepted title); [|done].
  by destruct (call_status title headers rows).
Qed.

(** The tables a call appends: the one it makes, unless the library
    refused the title. *)
Lemma tables_of_create_schema_table title headers rows e :
  tables_of (appended e (snd (create_schema_table title headers rows e)))
  = if accepted title then [rendered_table headers rows] else [].
Proof. rewrite appended_create_schema_table. apply tables_of_call. Qed.

Lemma table_of_create_schema_table title headers rows e :
  accepted title = true ->
  tables_of (appended e (snd (create_schema_table title headers rows e)))
  = [rendered_table headers rows].
Proof. intros H. by rewrite tables_of_create_schema_table, H. Qed.

Lemma length_rendered_rows headers rows :
  length (tbl_rows (rendered_table headers rows)) = length rows + 1.
Proof.
  unfold rendered_table; simpl.
  destruct (cells_status _ 0 headers (length headers));
    by rewrite ?length_write_rows, length_insert, length_replicate.
Qed.

Lemma Forall_rendered_rows headers rows :
  Forall (fun tr => length tr = length headers) (tbl_rows (rendered_table headers rows)).
Proof.
  unfold rendered_table; simpl.
  assert (H : Forall (fun tr => length tr = length headers)
                (<[0 := write_cells (fun header => header) header_cell 0 headers
                          (replicate (length headers) new_cell)]>
                   (replicate (length rows + 1) (replicate (length headers) new_cell)))).
  { apply Forall_insert.
    - apply Forall_replicate, length_replicate.
    - by rewrite length_write_cells, length_replicate. }
  destruct (cells_status _ 0 headers (length headers)); [|done].
  by apply Forall_write_rows.
Qed.

Lemma rendered_header_row headers rows :
  forallb accepted headers = true ->
  tbl_rows (rendered_table headers rows) !! 0
  = Some (map (fun header => header_cell header new_cell) headers).
Proof.
  intros Hok. unfold rendered_table; simpl.
  rewrite header_cells_status, Hok.
  rewrite lookup_write_rows_lt by lia.
  rewrite Nat.add_1_r; simpl. by rewrite write_cells_replicate.
Qed.

Lemma rendered_header_cell headers rows i header :
  forallb accepted headers = true ->
  headers !! i = Some header ->
  table_cell (rendered_table headers rows) 0 i = Some (header_cell header new_cell).
Proof.
  intros Hok Hi. unfold table_cell. rewrite rendered_header_row by done; simpl.
  by rewrite list_lookup_fmap, Hi.
Qed.

(** The row of the table below the header that belongs to a row of values,
    when writing got as far as that row. *)
Lemma rendered_body_row headers rows i row_data :
  forallb accepted headers = true ->
  rows !! i = Some row_data ->
  rows_status str (length headers) (take i rows) = Ok tt ->
  tbl_rows (rendered_table headers rows) !! S i
  = Some (write_cells str body_cell 0 row_data (replicate (length headers) new_cell)).
Proof.
  intros Hok Hi Hfit. unfold rendered_table; simpl.
  rewrite header_cells_status, Hok.
  rewrite (lookup_write_rows str body_cell (length headers) rows 1 _ i row_data Hi Hfit).
  rewrite Nat.add_1_r; simpl.
  by rewrite lookup_replicate_2 by (by eapply lookup_lt_Some).
Qed.

(** A value of a row of values that writing reached is in its cell. *)
Lemma rendered_body_cell headers rows i j row_data cell_data :
  forallb accepted headers = true ->
  rows !! i = Some row_data ->
  row_data !! j = Some cell_data ->
  j < length headers ->
  rows_status str (length headers) (take i rows) = Ok tt ->
  forallb (fun v => accepted (str v)) (take (S j) row_data) = true ->
  table_cell (rendered_table headers rows) (S i) j = Some (body_cell cell_data new_cell).
Proof.
  intros Hok Hi Hj Hlt Hfit Hacc. unfold table_cell.
  rewrite (rendered_body_row _ _ _ _ Hok Hi Hfit); simpl.
  rewrite (lookup_write_cells str body_cell row_data 0 _ j cell_data Hj Hacc); simpl.
  by rewrite lookup_replicate_2.
Qed.

(** The cells of a row past the entries of its row of values are new
    cells. *)
Lemma rendered_unfilled_cell headers rows i j row_data :
  rows !! i = Some row_data ->
  length row_data <= j < length headers ->
  table_cell (rendered_table headers rows) (S i) j = Some new_cell.
Proof.
  intros Hi [Hj Hlt]. unfold table_cell, rendered_table; simpl.
  assert (Hblank :
    (<[0 := write_cells (fun header => header) header_cell 0 headers
              (replicate (length headers) new_cell)]>
       (replicate (length rows + 1) (replicate (length headers) new_cell))) !! (1 + i)
    = Some (replicate (length headers) new_cell)).
  { rewrite Nat.add_1_r; simpl.
    by rewrite lookup_replicate_2 by (by eapply lookup_lt_Some). }
  destruct (cells_status _ 0 headers (length headers)).
  - destruct (lookup_write_rows_past str body_cell (length headers) rows 1 _
                i row_data _ j Hi Hblank Hj) as (tr' & Htr' & Hcell).
    simpl in Htr'. rewrite Htr'; simpl. rewrite Hcell.
    by apply lookup_replicate_2.
  - simpl in Hblank. rewrite Hblank; simpl. by apply lookup_replicate_2.
Qed.

Lemma cell_text_header_cell header cell :
  accepted header = true -> cell_text (header_cell header cell) = cr_to_lf header.
Proof. intros H. by apply (run_text_assigned header). Qed.

Lemma cell_text_body_cell cell_data cell :
  accepted (str cell_data) = true ->
  cell_text (body_cell cell_data cell) = cr_to_lf (str cell_data).
Proof. intros H. by apply (run_text_assigned (str cell_data)). Qed.

(** The font settings of the runs of a header cell and of a body cell. *)
Definition header_run (r : Run) : Prop :=
  font_bold (run_font r) = Some true
  /\ font_size (run_font r) = Some (Pt 10)
  /\ font_color (run_font r) = Some (mkRGB 255 255 255).

Definition body_run (r : Run) : Prop :=
  font_size (run_font r) = Some (Pt 9)
  /\ font_bold (run_font r) = None
  /\ font_color (run_font r) = None.

(** A single black line of width [width] (in eighths of a point) without
    spacing, on the edge [edge]. *)
Definition border_line (width edge : string) : Border :=
  mkBorder edge "single" width "0" "000000".

(** The border element of a table whose six edges are lines of width
    [width]. *)
Definition six_borders (width : string) : list Border :=
  [border_line width "top"; border_line width "left"; border_line width "bottom";
   border_line width "right"; border_line width "insideH";
   border_line width "insideV"].

(** The table a call creates has its six edges set to lines of width
    [width]; the call creates one unless the library refuses the title. *)
Definition borders_overridden (width : string) (e : Env)
    (title : string) (headers : list string) (rows : list (list PyVal)) : Prop :=
  let new := appended e (snd (create_schema_table title headers rows e)) in
  Forall (fun t => tbl_borders t = [six_borders width]) (tables_of new)
  /\ length (tables_of new) = if accepted title then 1 else 0.

(** The headers every table of [main] is given. *)
Definition schema_headers : list string :=
  ["Field Name"; "Type"; "Mandatory"; "Description"].

(** Texts with a character that matters to the library: a carriage return,
    which reads back as a newline, and a NUL, which XML forbids. *)
Definition carriage_return : string := String (ascii_of_nat 13) EmptyString.
Definition nul : string := String (ascii_of_nat 0) EmptyString.

(** C1. Every table a call of create_schema_table appends has
    len(rows) + 1 rows and len(headers) columns: that many grid columns and
    that many cells in each row.  A call appends exactly one table, also
    when it raises while the table is filled; only when the library refuses
    the title does add_heading raise before the table is made, and none is
    appended. *)
Theorem create_schema_table_dimensions e title headers rows :
  let new := appended e (snd (create_schema_table title headers rows e)) in
  Forall (fun t =>
            length (tbl_rows t) = length rows + 1
            /\ tbl_grid t = length headers
            /\ Forall (fun tr => length tr = length headers) (tbl_rows t))
         (tables_of new)
  /\ length (tables_of new) = if accepted title then 1 else 0.
Proof.
  cbv zeta. rewrite tables_of_create_schema_table.
  destruct (accepted title); [|by split].
  split; [|done]. constructor; [|constructor].
  split; [apply length_rendered_rows|]. split; [done|apply Forall_rendered_rows].
Qed.

(** C3, as amended. Every call of create_schema_table that creates a table
    (every call, unless the library refuses the title) sets all six border
    edges of the table (top, left, bottom, right, inside horizontal, inside
    vertical) to a single black line without spacing whose width attribute
    is 4 (eighths of a point), whatever the headers and the rows are and
    whether or not filling the table fails. *)
Theorem create_schema_table_borders e title headers rows :
  borders_overridden "4" e title headers rows.
Proof.
  unfold borders_overridden. cbv zeta. rewrite tables_of_create_schema_table.
  destruct (accepted title); [|by split].
  split; [|done]. by constructor.
Qed.

(** C3, as stated, fails: the lines are not 1 unit wide.  For the table of
    the snapshot source details the width attribute of the edges is not 1. *)
Lemma borders_not_one_unit_wide :
  ~ borders_overridden "1" env0 EmptyString schema_headers snapshot_data.
Proof.
  intros [Hb _]. rewrite tables_of_create_schema_table in Hb.
  change (accepted EmptyString) with true in Hb. cbv iota in Hb.
  apply Forall_cons_1 in Hb as [Hb _]. vm_compute in Hb. discriminate Hb.
Qed.

(** C4, as stated: after every call, for every body row i and column j
    with j < len(headers) the cell (i, j) of the body has the text
    str(rows[i][j]) and runs of 9pt without bold or color. *)
Definition body_cells_as_stated (e : Env) (title : string)
    (headers : list string) (rows : list (list PyVal)) : Prop :=
  forall i j row_data cell_data,
    rows !! i = Some row_data ->
    row_data !! j = Some cell_data ->
    j < length headers ->
    exists t cell,
      tables_of (appended e (snd (create_schema_table title headers rows e))) = [t]
      /\ table_cell t (S i) j = Some cell
      /\ cell_text cell = str cell_data
      /\ Forall body_run (cell_runs cell).

(** C4, as amended. After a call of create_schema_table that completed,
    for every body row i and column j that row i of the values has (so
    j < len(headers)) the cell (i, j) of the body (row i + 1 of the table)
    has the text str(rows[i][j]) with every carriage return turned into a
    newline, and every run of the cell has size 9pt and neither bold nor
    color set. *)
Theorem create_schema_table_body_cells e title headers rows i j row_data cell_data :
  fst (create_schema_table title headers rows e) = Ok tt ->
  rows !! i = Some row_data ->
  row_data !! j = Some cell_data ->
  j < length headers
  /\ exists t cell,
       tables_of (appended e (snd (create_schema_table title headers rows e))) = [t]
       /\ table_cell t (S i) j = Some cell
       /\ cell_text cell = cr_to_lf (str cell_data)
       /\ cell_runs cell <> []
       /\ Forall body_run (cell_runs cell).
Proof.
  intros Hok Hi Hj. rewrite status_create_schema_table in Hok.
  pose proof Hok as Hst. rewrite call_status_eq in Hst.
  apply call_status_Ok in Hok as (Htitle & Hheaders & Hvalues & Hfit).
  rewrite Htitle, Hheaders in Hst.
  assert (Hrow : forallb (fun v => accepted (str v)) row_data = true).
  { unfold values_accepted in Hvalues. rewrite forallb_forall in Hvalues.
    apply Hvalues. apply list_elem_of_In. by eapply list_elem_of_lookup_2. }
  assert (Hlt : j < length headers).
  { apply rows_fit_Forall in Hfit.
    pose proof (Forall_lookup_1 _ _ _ _ Hfit Hi) as Hlen. simpl in Hlen.
    apply lookup_lt_Some in Hj. lia. }
  assert (Hv : accepted (str cell_data) = true).
  { rewrite forallb_forall in Hrow. apply Hrow.
    apply list_elem_of_In. by eapply list_elem_of_lookup_2. }
  split; [done|].
  exists (rendered_table headers rows), (body_cell cell_data new_cell).
  split; [by apply table_of_create_schema_table|].
  split.
  { apply (rendered_body_cell _ _ _ _ row_data); try done.
    - by apply rows_status_take.
    - by apply forallb_take. }
  split; [by apply cell_text_body_cell|]. split; [done|].
  repeat constructor.
Qed.

Lemma create_schema_table_body_cells_witness :
  1 < length schema_headers
  /\ exists t cell,
       tables_of (appended env0 (snd (create_schema_table EmptyString schema_headers
                                        [[PyStr "keys"; PyBool false];
                                         [PyInt 42; PyStr ("a" +:+ carriage_return +:+ "b")]]
                                        env0))) = [t]
       /\ table_cell t 2 1 = Some cell
       /\ cell_text cell = "a" +:+ newline +:+ "b"
       /\ cell_runs cell <> []
       /\ Forall body_run (cell_runs cell).
Proof.
  apply (create_schema_table_body_cells env0 EmptyString schema_headers
           [[PyStr "keys"; PyBool false];
            [PyInt 42; PyStr ("a" +:+ carriage_return +:+ "b")]]
           1 1 [PyInt 42; PyStr ("a" +:+ carriage_return +:+ "b")]
           (PyStr ("a" +:+ carriage_return +:+ "b")));
    reflexivity.
Defined.

(** C4, as stated, fails: a value with a carriage return is given to a call
    that completes, and the text of its cell is not the str of the value. *)
Lemma body_cell_text_not_str :
  ~ body_cells_as_stated env0 EmptyString ["Description"]
      [[PyStr ("a" +:+ carriage_return +:+ "b")]].
Proof.
  intros H.
  destruct (H 0 0 [PyStr ("a" +:+ carriage_return +:+ "b")]
              (PyStr ("a" +:+ carriage_return +:+ "b")) eq_refl eq_refl)
    as (t & cell & Ht & Hcell & Htext & _); [simpl; lia|].
  rewrite table_of_create_schema_table in Ht by done.
  injection Ht as <-. vm_compute in Hcell. injection Hcell as <-.
  vm_compute in Htext. discriminate Htext.
Qed.

(** C5, as stated: after every call, for every index i below len(headers)
    the cell i of the header row has the text headers[i], runs that are
    bold, 10pt and white, and the blue shading. *)
Definition header_cells_as_stated (e : Env) (title : string)
    (headers : list string) (rows : list (list PyVal)) : Prop :=
  forall i header,
    headers !! i = Some header ->
    exists t cell,
      tables_of (appended e (snd (create_schema_table title headers rows e))) = [t]
      /\ table_cell t 0 i = Some cell
      /\ cell_text cell = header
      /\ Forall header_run (cell_runs cell)
      /\ cell_shd cell = ["0070C0"].

(** C5, as amended. After every call of create_schema_table whose title
    and headers the library takes, also one that raises while the body is
    filled, for every index i below len(headers) the cell i of the header
    row has the text headers[i] with every carriage return turned into a
    newline, every run of the cell is bold, 10pt and white, and the cell
    has one shading element, whose fill is the blue 0070C0. *)
Theorem create_schema_table_header_cells e title headers rows i header :
  accepted title = true ->
  forallb accepted headers = true ->
  headers !! i = Some header ->
  exists t cell,
    tables_of (appended e (snd (create_schema_table title headers rows e))) = [t]
    /\ table_cell t 0 i = Some cell
    /\ cell_text cell = cr_to_lf header
    /\ cell_runs cell <> []
    /\ Forall header_run (cell_runs cell)
    /\ cell_shd cell = ["0070C0"].
Proof.
  intros Htitle Hheaders Hi.
  exists (rendered_table headers rows), (header_cell header new_cell).
  split; [by apply table_of_create_schema_table|].
  split; [by apply rendered_header_cell|].
  split.
  { apply cell_text_header_cell. rewrite forallb_forall in Hheaders.
    apply Hheaders, list_elem_of_In. by eapply list_elem_of_lookup_2. }
  split; [done|]. split; [|done].
  repeat constructor.
Qed.

Lemma create_schema_table_header_cells_witness :
  exists t cell,
    tables_of (appended env0 (snd (create_schema_table "Main Configuration Fields"
                                     schema_headers onboarding_data env0))) = [t]
    /\ table_cell t 0 2 = Some cell
    /\ cell_text cell = "Mandatory"
    /\ cell_runs cell <> []
    /\ Forall header_run (cell_runs cell)
    /\ cell_shd cell = ["0070C0"].
Proof.
  apply (create_schema_table_header_cells env0 "Main Configuration Fields"
           schema_headers onboarding_data 2 "Mandatory");
    reflexivity.
Defined.

(** C5, as stated, fails: a header with a carriage return is given to a
    call that completes, and the text of its cell is not the header. *)
Lemma header_cell_text_not_header :
  ~ header_cells_as_stated env0 EmptyString
      ["Field" +:+ carriage_return +:+ "Name"] [].
Proof.
  intros H.
  destruct (H 0 ("Field" +:+ carriage_return +:+ "Name") eq_refl)
    as (t & cell & Ht & Hcell & Htext & _).
  rewrite table_of_create_schema_table in Ht by done.
  injection Ht as <-. vm_compute in Hcell. injection Hcell as <-.
  vm_compute in Htext. discriminate Htext.
Qed.

(** C6, as stated: a call with no rows of values completes, and its table
    has exactly one row, the header row, with len(headers) cells holding
    the headers. *)
Definition no_rows_as_stated (e : Env) (title : string) (headers : list string) : Prop :=
  fst (create_schema_table title headers [] e) = Ok tt
  /\ exists t hdr_row,
       tables_of (appended e (snd (create_schema_table title headers [] e))) = [t]
       /\ tbl_rows t = [hdr_row]
       /\ length hdr_row = length headers
       /\ tbl_grid t = length headers.

(** C6, as amended. A call of create_schema_table with no rows of values
    whose title and headers the library takes completes without an
    exception, and the table it appends has exactly one row, the header
    row, with len(headers) cells holding the headers (carriage returns read
    as newlines). *)
Theorem create_schema_table_no_rows e title headers :
  accepted title = true ->
  forallb accepted headers = true ->
  fst (create_schema_table title headers [] e) = Ok tt
  /\ exists t hdr_row,
       tables_of (appended e (snd (create_schema_table title headers [] e))) = [t]
       /\ tbl_rows t = [hdr_row]
       /\ length hdr_row = length headers
       /\ tbl_grid t = length headers
       /\ map cell_text hdr_row = map cr_to_lf headers.
Proof.
  intros Htitle Hheaders. split.
  { rewrite status_create_schema_table. by apply call_status_Ok. }
  exists (rendered_table headers []),
         (map (fun header => header_cell header new_cell) headers).
  split; [by apply table_of_create_schema_table|].
  split.
  { unfold rendered_table; simpl. rewrite header_cells_status, Hheaders; simpl.
    by rewrite write_cells_replicate. }
  split; [apply length_map|]. split; [done|].
  rewrite map_map. apply map_ext_in. intros header Hin.
  apply cell_text_header_cell. rewrite forallb_forall in Hheaders. by apply Hheaders.
Qed.

Lemma create_schema_table_no_rows_witness :
  fst (create_schema_table "Sink Object" schema_headers [] env0) = Ok tt
  /\ exists t hdr_row,
       tables_of (appended env0 (snd (create_schema_table "Sink Object" schema_headers
                                        [] env0))) = [t]
       /\ tbl_rows t = [hdr_row]
       /\ length hdr_row = length schema_headers
       /\ tbl_grid t = length schema_headers
       /\ map cell_text hdr_row = map cr_to_lf schema_headers.
Proof.
  apply (create_schema_table_no_rows env0 "Sink Object" schema_headers); reflexivity.
Defined.

(** C6, as stated, fails: with a header that holds a NUL the call raises
    ValueError although there are no rows of values. *)
Lemma no_rows_call_raises :
  ~ no_rows_as_stated env0 EmptyString ["Field" +:+ nul].
Proof. intros [Hok _]. vm_compute in Hok. discriminate Hok. Qed.





(** C10, as stated: a call raises IndexError when some row of values has
    more entries than there are headers, and completes when no row has
    more. *)
Definition row_lengths_as_stated (e : Env) (title : string)
    (headers : list string) (rows : list (list PyVal)) : Prop :=
  (Exists (fun row_data => length headers < length row_data) rows ->
   fst (create_schema_table title headers rows e) = Raise IndexError)
  /\ (Forall (fun row_data => length row_data <= length headers) rows ->
      fst (create_schema_table title headers rows e) = Ok tt).

(** C10, as amended. A call of create_schema_table whose title, headers
    and values the library takes raises IndexError exactly when some row of
    values has more entries than there are headers, and completes exactly
    when no row has more: rows with fewer entries do not make it fail.  In
    every such call the cells of a body row past the entries of its row of
    values keep their empty text. *)
Theorem create_schema_table_row_lengths e title headers rows :
  accepted title = true ->
  forallb accepted headers = true ->
  values_accepted rows = true ->
  (Exists (fun row_data => length headers < length row_data) rows
   <-> fst (create_schema_table title headers rows e) = Raise IndexError)
  /\ (Forall (fun row_data => length row_data <= length headers) rows
      <-> fst (create_schema_table title headers rows e) = Ok tt)
  /\ forall i j row_data,
       rows !! i = Some row_data ->
       length row_data <= j < length headers ->
       exists t cell,
         tables_of (appended e (snd (create_schema_table title headers rows e))) = [t]
         /\ table_cell t (S i) j = Some cell
         /\ cell_text cell = EmptyString.
Proof.
  intros Htitle Hheaders Hvalues.
  rewrite status_create_schema_table, call_status_eq, Htitle, Hheaders.
  rewrite rows_status_accepted by done. fold (rows_fit headers rows).
  rewrite <- rows_fit_Exists, <- rows_fit_Forall.
  split; [by destruct (rows_fit headers rows)|].
  split; [by destruct (rows_fit headers rows)|].
  intros i j row_data Hi Hj.
  exists (rendered_table headers rows), new_cell.
  split; [by apply table_of_create_schema_table|].
  split; [by eapply rendered_unfilled_cell|done].
Qed.

Lemma create_schema_table_row_lengths_witness :
  fst (create_schema_table EmptyString ["Field Name"; "Type"]
         [[PyStr "keys"; PyStr "Array"; PyStr "Yes"]] env0) = Raise IndexError
  /\ fst (create_schema_table EmptyString ["Field Name"; "Type"]
            [[PyStr "keys"]] env0) = Ok tt
  /\ exists t cell,
       tables_of (appended env0 (snd (create_schema_table EmptyString
                                        ["Field Name"; "Type"] [[PyStr "keys"]] env0)))
       = [t]
       /\ table_cell t 1 1 = Some cell
       /\ cell_text cell = EmptyString.
Proof.
  split; [|split].
  - apply (proj1 (create_schema_table_row_lengths env0 EmptyString
                    ["Field Name"; "Type"]
                    [[PyStr "keys"; PyStr "Array"; PyStr "Yes"]]
                    eq_refl eq_refl eq_refl)).
    apply Exists_cons_hd. simpl. lia.
  - apply (proj1 (proj2 (create_schema_table_row_lengths env0 EmptyString
                           ["Field Name"; "Type"] [[PyStr "keys"]]
                           eq_refl eq_refl eq_refl))).
    repeat constructor.
  - apply (proj2 (proj2 (create_schema_table_row_lengths env0 EmptyString
                           ["Field Name"; "Type"] [[PyStr "keys"]]
                           eq_refl eq_refl eq_refl))
             0 1 [PyStr "keys"]); [reflexivity | simpl; lia].
Defined.

(** C10, as stated, fails: a row of values has more entries than there are
    headers, but the library refuses its first value, and the call raises
    ValueError before it indexes past the end of the row. *)
Lemma long_row_raises_value_error :
  ~ row_lengths_as_stated env0 EmptyString ["Field Name"]
      [[PyStr ("keys" +:+ nul); PyStr "Array"]].
Proof.
  intros [Hlong _].
  assert (Hraise : fst (create_schema_table EmptyString ["Field Name"]
                          [[PyStr ("keys" +:+ nul); PyStr "Array"]] env0)
                   = Raise IndexError).
  { apply Hlong. apply Exists_cons_hd. simpl. lia. }
  vm_compute in Hraise. discriminate Hraise.
Qed.

(** ** The document assembler *)

(** What a block is, for the outline of a document. *)
Inductive Outline :=
| OHeading (level : Z) (text : string)
| OParagraph (text : string)
| OPageBreak
| OTable (rows cols : nat).

Definition block_outline (b : Block) : Outline :=
  match b with
  | BlockTable t => OTable (length (tbl_rows t)) (tbl_grid t)
  | BlockParagraph p =>
      if is_page_break b then OPageBreak
      else match heading_level p with
           | Some level => OHeading level (paragraph_text p)
           | None => OParagraph (paragraph_text p)
           end
  end.

(** The texts of the table that [create_schema_table] makes of the rows of
    values [data] under the headers of [main]. *)
Definition schema_texts (data : list (list PyVal)) : list (list string) :=
  schema_headers :: map (map str) data.

(** The document [main] assembles, as it is in the environment [env0]. *)
Definition main_document : Document := doc (snd (main env0)).

(** A run of [main] in any environment: the document assembled is the same,
    and it is saved and reported exactly when the output path can be
    written. *)
Lemma main_run e :
  main e
  = if writable (world e) output_path
    then (Ok tt,
          mkEnv main_document
                (mkWorld (clock (world e)) (writable (world e))
                         ((output_path, main_document) :: files (world e))
                         (stdout (world e) ++ ["Document saved to: " +:+ output_path])))
    else (Raise OSError, mkEnv main_document (world e)).
Proof.
  destruct e as [d [c w f o]]. vm_compute. destruct (w _); reflexivity.
Qed.

Lemma main_document_fixed e : doc (snd (main e)) = main_document.
Proof. rewrite main_run. by destruct (writable (world e) output_path). Qed.

Lemma main_saved e :
  fst (main e) = Ok tt ->
  saved output_path (world (snd (main e))) = Some main_document.
Proof.
  rewrite main_run. destruct (writable (world e) output_path); [|done].
  intros _. unfold saved. cbn [snd world files find fst].
  by rewrite String.eqb_refl.
Qed.

(** C2, as amended. In every run of main the Source Details section holds
    three tables, one for each of the source formats CloudFiles, EventHub
    and Snapshot, each right after the level-3 heading of its format and
    followed by a spacing paragraph; among the ten tables of the document
    they are the second, third and fourth, in this order. *)
Theorem main_source_details_tables e :
  let d := doc (snd (main e)) in
  let section := section_of "1.1 Source Details Object" (body d) in
  map table_texts (tables_of section)
  = [schema_texts cloudfiles_data; schema_texts eventhub_data; schema_texts snapshot_data]
  /\ map block_outline section
     = [OHeading 3 "For CloudFiles Source Format:"; OTable 9 4; OParagraph EmptyString;
        OHeading 3 "For EventHub Source Format:"; OTable 10 4; OParagraph EmptyString;
        OHeading 3 "For Snapshot Source Format:"; OTable 3 4; OParagraph EmptyString;
        OPageBreak]
  /\ map table_texts (tables_of (body d))
     = map schema_texts
         [onboarding_data; cloudfiles_data; eventhub_data; snapshot_data; cdc_data;
          snapshot_changes_data; append_flows_data; sink_data;
          silver_transform_data; dqe_data].
Proof.
  cbv zeta. rewrite main_document_fixed. repeat split; vm_compute; reflexivity.
Qed.

(** C2, as stated, fails: the Source Details section of the document does
    not hold five tables. *)
Lemma source_details_not_five_tables :
  length (tables_of (section_of "1.1 Source Details Object"
                       (body (doc (snd (main env0)))))) <> 5.
Proof. vm_compute. discriminate. Qed.

(** C7. Two runs of main, in whatever environments (clock, file system,
    console), assemble documents with the same table structure: the same
    tables in the same order, each with the same row count, column count and
    cell texts; and when both runs complete, the files they save have the
    same table structure. *)
Theorem main_table_structure_deterministic e1 e2 :
  table_structure (doc (snd (main e1))) = table_structure (doc (snd (main e2)))
  /\ forall d1 d2,
       fst (main e1) = Ok tt ->
       fst (main e2) = Ok tt ->
       saved output_path (world (snd (main e1))) = Some d1 ->
       saved output_path (world (snd (main e2))) = Some d2 ->
       table_structure d1 = table_structure d2.
Proof.
  split.
  - by rewrite !main_document_fixed.
  - intros d1 d2 Hok1 Hok2. rewrite !main_saved by done. congruence.
Qed.

(** Two environments that differ in everything the program does not set
    itself. *)
Definition env_later : Env :=
  mkEnv (mkDocument "draft" "somebody"
           [BlockParagraph (mkParagraph None None [mkRun [RText "old"] default_font false])])
        (mkWorld 1761264000 (fun _ => true)
                 [(output_path, default_document)] ["earlier output"]).

Lemma main_table_structure_deterministic_witness :
  table_structure (doc (snd (main env0))) = table_structure (doc (snd (main env_later)))
  /\ table_structure main_document = table_structure main_document.
Proof.
  split.
  - exact (proj1 (main_table_structure_deterministic env0 env_later)).
  - apply (proj2 (main_table_structure_deterministic env0 env_later)
             main_document main_document);
      vm_compute; reflexivity.
Defined.

(** C9. In every run of main the title page (the blocks before the first
    page break) ends with the paragraph whose text is the literal
    'Generated: October 23, 2025'; the document assembled is the same in any
    two environments, whatever their clocks show, and so is the file saved
    by a run that completes. *)
Theorem main_generation_date e1 e2 :
  map paragraph_text (paragraphs_of (title_page (body (doc (snd (main e1))))))
  = ["DLT-META JSON Configuration Schemas"; "Complete Reference Guide";
     EmptyString; "Generated: October 23, 2025"]
  /\ doc (snd (main e1)) = doc (snd (main e2))
  /\ (fst (main e1) = Ok tt ->
      saved output_path (world (snd (main e1))) = Some (doc (snd (main e2)))).
Proof.
  rewrite !main_document_fixed. split; [vm_compute; reflexivity|].
  split; [done|]. apply main_saved.
Qed.

Lemma main_generation_date_witness :
  saved output_path (world (snd (main env_later))) = Some (doc (snd (main env0))).
Proof.
  apply (proj2 (proj2 (main_generation_date env_later env0))).
  vm_compute. reflexivity.
Defined.


(** ** More about the table formatter *)

(** The texts of a body row: the values as they read back, then empty
    texts up to the number of columns. *)
Definition padded_texts (n : nat) (row_data : list PyVal) : list string :=
  map (fun v => cr_to_lf (str v)) row_data
  ++ replicate (n - length row_data) EmptyString.

Lemma texts_of_body_row n row_data :
  forallb (fun v => accepted (str v)) row_data = true ->
  length row_data <= n ->
  map cell_text (write_cells str body_cell 0 row_data (replicate n new_cell))
  = padded_texts n row_data.
Proof.
  intros Hacc Hn. apply list_eq; intros j. rewrite list_lookup_fmap.
  unfold padded_texts.
  destruct (row_data !! j) as [v|] eqn:Hj.
  - pose proof (lookup_lt_Some _ _ _ Hj) as Hlt.
    rewrite (lookup_write_cells str body_cell row_data 0 _ j v Hj)
      by (by apply forallb_take); simpl.
    rewrite lookup_replicate_2 by lia.
    rewrite lookup_app_l by (by rewrite length_map).
    rewrite list_lookup_fmap, Hj. simpl. f_equal.
    apply cell_text_body_cell. rewrite forallb_forall in Hacc.
    apply Hacc, list_elem_of_In. by eapply list_elem_of_lookup_2.
  - apply lookup_ge_None in Hj.
    rewrite lookup_write_cells_past by (simpl; lia).
    rewrite lookup_app_r by (by rewrite length_map).
    rewrite length_map.
    destruct (decide (j < n)) as [Hlt|Hge].
    + by rewrite !lookup_replicate_2 by lia.
    + rewrite (proj2 (lookup_ge_None (replicate n new_cell) j))
        by (rewrite length_replicate; lia).
      symmetry. apply lookup_ge_None. rewrite length_replicate. lia.
Qed.

Lemma rendered_texts title headers rows :
  call_status title headers rows = Ok tt ->
  table_texts (rendered_table headers rows)
  = map cr_to_lf headers :: map (padded_texts (length headers)) rows.
Proof.
  intros Hok. pose proof Hok as Hst. rewrite call_status_eq in Hst.
  apply call_status_Ok in Hok as (Htitle & Hheaders & Hvalues & Hfit).
  rewrite Htitle, Hheaders in Hst.
  unfold table_texts. apply list_eq; intros [|i].
  - rewrite list_lookup_fmap, rendered_header_row by done; simpl.
    rewrite map_map. f_equal. apply map_ext_in. intros header Hin.
    apply cell_text_header_cell. rewrite forallb_forall in Hheaders.
    by apply Hheaders.
  - rewrite list_lookup_fmap.
    change ((map cr_to_lf headers :: map (padded_texts (length headers)) rows) !! S i)
      with (map (padded_texts (length headers)) rows !! i).
    rewrite list_lookup_fmap.
    destruct (rows !! i) as [row_data|] eqn:Hi.
    + rewrite (rendered_body_row _ _ _ _ Hheaders Hi (rows_status_take _ _ _ Hst));
        simpl.
      f_equal. apply texts_of_body_row.
      * unfold values_accepted in Hvalues. rewrite forallb_forall in Hvalues.
        apply Hvalues, list_elem_of_In. by eapply list_elem_of_lookup_2.
      * apply rows_fit_Forall in Hfit.
        by apply (Forall_lookup_1 _ _ _ _ Hfit Hi).
    + apply lookup_ge_None in Hi.
      rewrite (proj2 (lookup_ge_None _ (S i))); [done|].
      rewrite length_rendered_rows. lia.
Qed.

(** X1. A call of create_schema_table only appends: the blocks that were in
    the document stay as they were, in front of the appended ones, and the
    core properties of the document, the files and the console are left
    alone, also when the call raises. *)
Theorem create_schema_table_frame e title headers rows :
  let e' := snd (create_schema_table title headers rows e) in
  body (doc e') = body (doc e) ++ appended e e'
  /\ core_title (doc e') = core_title (doc e)
  /\ core_author (doc e') = core_author (doc e)
  /\ world e' = world e.
Proof.
  cbv zeta. rewrite appended_create_schema_table, create_schema_table_run. done.
Qed.

(** X2. A call of create_schema_table that completes appends one empty
    paragraph right after its table, as the last of two blocks (three with
    a title).  A call that raises does not reach the spacing paragraph of
    line 65: either its table is the last block, or the library refused the
    title and the call appended one paragraph without a style and no
    table. *)
Theorem create_schema_table_spacing e title headers rows :
  let new := appended e (snd (create_schema_table title headers rows e)) in
  match fst (create_schema_table title headers rows e) with
  | Ok _ =>
      exists t,
        tables_of new = [t]
        /\ last new = Some (BlockParagraph (mkParagraph None None []))
        /\ new !! (length new - 2) = Some (BlockTable t)
        /\ length new = if truthy title then 3 else 2
  | Raise _ =>
      (exists t, tables_of new = [t] /\ last new = Some (BlockTable t))
      \/ (tables_of new = []
          /\ exists p, new = [BlockParagraph p] /\ par_style p = None)
  end.
Proof.
  cbv zeta. rewrite appended_create_schema_table, status_create_schema_table.
  rewrite tables_of_call. unfold call_blocks, heading_blocks.
  destruct (call_status title headers rows) as [[]|x] eqn:Hst.
  - apply call_status_Ok in Hst as (-> & _).
    exists (rendered_table headers rows). by destruct (truthy title).
  - destruct (accepted title) eqn:Hacc.
    + left. exists (rendered_table headers rows). by destruct (truthy title).
    + right. split; [done|]. destruct title as [|a title]; [done|].
      eexists. by rewrite app_nil_r.
Qed.

(** X3. In a call whose title, headers and values the library takes, when
    row k is the first row of values with more entries than there are
    headers, the call raises IndexError and leaves a partly written table:
    the values of the rows up to and including row k that have a column are
    in their cells, and every cell of the rows below row k still has its
    empty text. *)
Theorem create_schema_table_partial_write e title headers rows k long :
  accepted title = true ->
  forallb accepted headers = true ->
  values_accepted rows = true ->
  rows !! k = Some long ->
  length headers < length long ->
  rows_fit headers (take k rows) = true ->
  fst (create_schema_table title headers rows e) = Raise IndexError
  /\ exists t,
       tables_of (appended e (snd (create_schema_table title headers rows e))) = [t]
       /\ (forall i j row_data cell_data,
             i <= k -> rows !! i = Some row_data ->
             row_data !! j = Some cell_data -> j < length headers ->
             cell_text <$> table_cell t (S i) j = Some (cr_to_lf (str cell_data)))
       /\ (forall i j,
             k < i < length rows -> j < length headers ->
             cell_text <$> table_cell t (S i) j = Some EmptyString).
Proof.
  intros Htitle Hheaders Hvalues Hk Hlong Hfit.
  assert (Hrow : forall i row_data, rows !! i = Some row_data ->
                   forallb (fun v => accepted (str v)) row_data = true).
  { intros i row_data Hi. unfold values_accepted in Hvalues.
    rewrite forallb_forall in Hvalues.
    apply Hvalues, list_elem_of_In. by eapply list_elem_of_lookup_2. }
  split.
  - rewrite status_create_schema_table, call_status_eq, Htitle, Hheaders.
    rewrite rows_status_accepted by done. fold (rows_fit headers rows).
    replace (rows_fit headers rows) with false; [done|].
    symmetry. apply rows_fit_Exists, Exists_exists.
    exists long. split; [by eapply list_elem_of_lookup_2|done].
  - exists (rendered_table headers rows).
    split; [by apply table_of_create_schema_table|]. split.
    + intros i j row_data cell_data Hik Hi Hj Hlt.
      rewrite (rendered_body_cell _ _ _ _ _ _ Hheaders Hi Hj Hlt).
      * simpl. f_equal. apply cell_text_body_cell.
        pose proof (Hrow _ _ Hi) as Hacc. rewrite forallb_forall in Hacc.
        apply Hacc, list_elem_of_In. by eapply list_elem_of_lookup_2.
      * rewrite rows_status_accepted by (by apply forallb_take).
        replace (take i rows) with (take i (take k rows))
          by (rewrite take_take; f_equal; lia).
        unfold rows_fit in Hfit. by rewrite (forallb_take _ _ i Hfit).
      * apply forallb_take. by eapply Hrow.
    + intros i j [Hki Hi] Hj. unfold table_cell, rendered_table; simpl.
      rewrite header_cells_status, Hheaders.
      rewrite (lookup_write_rows_after str body_cell (length headers) rows 1 _ k long
                 IndexError i); [|done| |done].
      * rewrite Nat.add_1_r; simpl.
        rewrite lookup_replicate_2 by done; simpl.
        by rewrite lookup_replicate_2.
      * rewrite (cells_status_accepted str long 0 _ (Hrow _ _ Hk)) by lia.
        by rewrite (proj2 (Nat.leb_gt _ _)) by (simpl; lia).
Qed.

Lemma create_schema_table_partial_write_witness :
  fst (create_schema_table EmptyString ["Field Name"; "Type"]
         [[PyStr "keys"]; [PyStr "once"; PyBool true; PyInt 7]; [PyStr "where"]]
         env0) = Raise IndexError
  /\ exists t,
       tables_of (appended env0
                    (snd (create_schema_table EmptyString ["Field Name"; "Type"]
                            [[PyStr "keys"]; [PyStr "once"; PyBool true; PyInt 7];
                             [PyStr "where"]] env0))) = [t]
       /\ cell_text <$> table_cell t 2 1 = Some "True"
       /\ cell_text <$> table_cell t 3 0 = Some EmptyString.
Proof.
  destruct (create_schema_table_partial_write env0 EmptyString ["Field Name"; "Type"]
              [[PyStr "keys"]; [PyStr "once"; PyBool true; PyInt 7]; [PyStr "where"]]
              1 [PyStr "once"; PyBool true; PyInt 7])
    as (Hraise & t & Ht & Hwritten & Hempty);
    [reflexivity | reflexivity | reflexivity | reflexivity | simpl; lia
     | reflexivity |].
  split; [exact Hraise|]. exists t. split; [exact Ht|]. split.
  - apply (Hwritten 1 1 [PyStr "once"; PyBool true; PyInt 7] (PyBool true));
      [lia | reflexivity | reflexivity | simpl; lia].
  - apply (Hempty 2 0); simpl; lia.
Defined.

(** X4. Reading back the table of a call that completed gives what was put
    in, with carriage returns turned into newlines: the first row of texts
    is the headers, and the row below it for each row of values is the str
    of its values, followed by empty texts up to the number of headers. *)
Theorem create_schema_table_texts e title headers rows :
  fst (create_schema_table title headers rows e) = Ok tt ->
  exists t,
    tables_of (appended e (snd (create_schema_table title headers rows e))) = [t]
    /\ table_texts t
       = map cr_to_lf headers
           :: map (fun row_data =>
                     map (fun v => cr_to_lf (str v)) row_data
                     ++ replicate (length headers - length row_data) EmptyString)
                  rows.
Proof.
  intros Hok. rewrite status_create_schema_table in Hok.
  exists (rendered_table headers rows). split.
  - apply table_of_create_schema_table. by apply call_status_Ok in Hok as (-> & _).
  - by apply (rendered_texts title).
Qed.

Lemma create_schema_table_texts_witness :
  exists t,
    tables_of (appended env0 (snd (create_schema_table "Sink" ["Field Name"; "Type"; "Default"]
                                     [[PyStr "once"; PyStr "Boolean"; PyBool false];
                                      [PyStr "retries"; PyStr "Integer"; PyInt 3];
                                      [PyStr ("where" +:+ carriage_return)]] env0))) = [t]
    /\ table_texts t
       = [["Field Name"; "Type"; "Default"];
          ["once"; "Boolean"; "False"];
          ["retries"; "Integer"; "3"];
          ["where" +:+ newline; EmptyString; EmptyString]].
Proof.
  apply (create_schema_table_texts env0 "Sink" ["Field Name"; "Type"; "Default"]
           [[PyStr "once"; PyStr "Boolean"; PyBool false];
            [PyStr "retries"; PyStr "Integer"; PyInt 3];
            [PyStr ("where" +:+ carriage_return)]]).
  reflexivity.
Defined.

(** X5. Only the header row is shaded: in every table a call appends, no
    cell of a body row has a shading element, whether the cell was written
    or not. *)
Theorem create_schema_table_body_not_shaded e title headers rows :
  Forall (fun t => forall i j cell,
            table_cell t (S i) j = Some cell -> cell_shd cell = [])
         (tables_of (appended e (snd (create_schema_table title headers rows e)))).
Proof.
  rewrite tables_of_create_schema_table.
  destruct (accepted title); [|constructor].
  constructor; [|constructor].
  intros i j cell. unfold table_cell.
  destruct (tbl_rows (rendered_table headers rows) !! S i) as [tr'|] eqn:Htr';
    [simpl|done].
  intros Hcell.
  assert (Hlen : i < length rows).
  { apply lookup_lt_Some in Htr'. rewrite length_rendered_rows in Htr'. lia. }
  unfold rendered_table in Htr'; simpl in Htr'.
  assert (Hblank :
    (<[0 := write_cells (fun header => header) header_cell 0 headers
              (replicate (length headers) new_cell)]>
       (replicate (length rows + 1) (replicate (length headers) new_cell))) !! S i
    = Some (replicate (length headers) new_cell)).
  { rewrite Nat.add_1_r; simpl. by apply lookup_replicate_2. }
  assert (HP : Forall (fun c => cell_shd c = []) tr').
  { destruct (cells_status _ 0 headers (length headers)).
    - refine (lookup_write_rows_Forall str body_cell (fun c => cell_shd c = [])
                (length headers) rows (fun _ _ H => H) (fun _ _ H => H) 1 _ (S i)
                (replicate (length headers) new_cell) tr' Hblank _ Htr').
      by apply Forall_replicate.
    - replace tr' with (replicate (length headers) new_cell) by congruence.
      by apply Forall_replicate. }
  by apply (Forall_lookup_1 _ _ _ _ HP Hcell).
Qed.

(** X6. The table a call of create_schema_table makes depends on the
    headers and the rows of values only: for two titles that the library
    both takes or both refuses, the calls append the same tables, whatever
    the documents and the environments they are run in. *)
Theorem create_schema_table_table_independent e e' title title' headers rows :
  accepted title = accepted title' ->
  tables_of (appended e (snd (create_schema_table title headers rows e)))
  = tables_of (appended e' (snd (create_schema_table title' headers rows e'))).
Proof. intros H. by rewrite !tables_of_create_schema_table, H. Qed.

Lemma create_schema_table_table_independent_witness :
  tables_of (appended env0 (snd (create_schema_table EmptyString schema_headers
                                   snapshot_data env0)))
  = tables_of (appended env_later (snd (create_schema_table "Snapshot" schema_headers
                                          snapshot_data env_later))).
Proof.
  apply (create_schema_table_table_independent env0 env_later EmptyString "Snapshot"
           schema_headers snapshot_data).
  reflexivity.
Defined.

(** X7. When the library takes the title but refuses a header, the call
    raises ValueError with the table as the last appended block, and no
    cell of a body row has been written. *)
Theorem create_schema_table_rejected_header e title headers rows :
  accepted title = true ->
  forallb accepted headers = false ->
  let new := appended e (snd (create_schema_table title headers rows e)) in
  fst (create_schema_table title headers rows e) = Raise ValueError
  /\ exists t,
       tables_of new = [t]
       /\ last new = Some (BlockTable t)
       /\ forall i j,
            i < length rows -> j < length headers ->
            table_cell t (S i) j = Some new_cell.
Proof.
  intros Htitle Hheaders. cbv zeta.
  rewrite status_create_schema_table, appended_create_schema_table, tables_of_call.
  unfold call_blocks. rewrite call_status_eq, Htitle, Hheaders.
  split; [done|]. exists (rendered_table headers rows). split; [done|].
  split.
  { unfold heading_blocks, spacing. by destruct (truthy title). }
  intros i j Hi Hj. unfold table_cell, rendered_table; simpl.
  rewrite header_cells_status, Hheaders.
  rewrite Nat.add_1_r; simpl. rewrite lookup_replicate_2 by done; simpl.
  by apply lookup_replicate_2.
Qed.

Lemma create_schema_table_rejected_header_witness :
  fst (create_schema_table "Sink" ["Field Name"; "Type" +:+ nul; "Default"]
         [[PyStr "once"; PyStr "Boolean"; PyBool false]] env0)
  = Raise ValueError.
Proof.
  apply (create_schema_table_rejected_header env0 "Sink"
           ["Field Name"; "Type" +:+ nul; "Default"]
           [[PyStr "once"; PyStr "Boolean"; PyBool false]]);
    reflexivity.
Defined.

(** X8. add_table_borders adds and does not replace: run twice on a table
    of the document, it leaves two border elements after the ones the table
    had, each with the six edges top, left, bottom, right, insideH and
    insideV as single black lines of width 4, and changes neither the
    style, the grid or the rows of the table nor any other block or the
    world. *)
Theorem add_table_borders_twice e table t :
  body (doc e) !! table = Some (BlockTable t) ->
  let both := (add_table_borders table ;; add_table_borders table) e in
  fst both = Ok tt
  /\ body (doc (snd both))
     = <[table := BlockTable
                    (mkTable (tbl_style t)
                       (tbl_borders t ++ [six_borders "4"; six_borders "4"])
                       (tbl_grid t) (tbl_rows t))]> (body (doc e))
  /\ world (snd both) = world e.
Proof.
  intros Ht. cbv zeta.
  unfold mbind, M_bind, add_table_borders, tblPr_append_borders, with_table.
  rewrite Ht. unfold set_body; simpl.
  rewrite list_lookup_insert_eq by (by eapply lookup_lt_Some). simpl.
  rewrite list_insert_insert_eq, <- app_assoc. done.
Qed.

Lemma add_table_borders_twice_witness :
  body (doc (snd ((add_table_borders 1 ;; add_table_borders 1)
                    (mkEnv (mkDocument "d" "a"
                              [BlockParagraph (mkParagraph None None []);
                               BlockTable (new_table 1 2)])
                           (world env0)))))
  = [BlockParagraph (mkParagraph None None []);
     BlockTable (mkTable None [six_borders "4"; six_borders "4"]
                   2 [[new_cell; new_cell]])].
Proof.
  apply (add_table_borders_twice
           (mkEnv (mkDocument "d" "a"
                     [BlockParagraph (mkParagraph None None []);
                      BlockTable (new_table 1 2)])
                  (world env0))
           1 (new_table 1 2)).
  reflexivity.
Defined.

(** X11. Every table a call of create_schema_table appends has the style
    'Light Grid Accent 1', also in a call that raises while the table is
    filled. *)
Theorem create_schema_table_style e title headers rows :
  Forall (fun t => tbl_style t = Some "Light Grid Accent 1")
         (tables_of (appended e (snd (create_schema_table title headers rows e)))).
Proof.
  rewrite tables_of_create_schema_table.
  destruct (accepted title); repeat constructor.
Qed.

(** X9. When the output path cannot be written, main raises the error of
    the save and has changed nothing outside the document: no file is
    written and no line is printed. *)
Theorem main_save_fails e :
  writable (world e) output_path = false ->
  fst (main e) = Raise OSError /\ world (snd (main e)) = world e.
Proof.
  intros Hw. rewrite main_run, Hw. cbn [fst snd world]. split; reflexivity.
Qed.

(** An environment in which the output path cannot be written. *)
Definition env_read_only : Env :=
  mkEnv default_document
        (mkWorld 5 (fun path => negb (String.eqb path output_path))
                 [("notes.txt", default_document)] ["hello"]).

Lemma main_save_fails_witness :
  fst (main env_read_only) = Raise OSError
  /\ world (snd (main env_read_only)) = world env_read_only.
Proof.
  apply (main_save_fails env_read_only).
  vm_compute. reflexivity.
Defined.

(** X10. When the output path can be written, main completes; it saves the
    document it assembled at the output path, in front of the files that
    were there, and prints one line, the confirmation with the output path,
    after what had been printed. *)
Theorem main_saves_and_reports e :
  writable (world e) output_path = true ->
  fst (main e) = Ok tt
  /\ files (world (snd (main e))) = (output_path, doc (snd (main e))) :: files (world e)
  /\ stdout (world (snd (main e)))
     = stdout (world e) ++ ["Document saved to: " +:+ output_path]
  /\ saved output_path (world (snd (main e))) = Some (doc (snd (main e))).
Proof.
  intros Hw.
  assert (Hok : fst (main e) = Ok tt) by (rewrite main_run, Hw; reflexivity).
  rewrite (main_saved e Hok).
  rewrite main_run, Hw. cbn [fst snd doc world files stdout].
  repeat split; reflexivity.
Qed.

Lemma main_saves_and_reports_witness :
  fst (main env_later) = Ok tt
  /\ files (world (snd (main env_later)))
     = (output_path, doc (snd (main env_later))) :: files (world env_later)
  /\ stdout (world (snd (main env_later)))
     = stdout (world env_later) ++ ["Document saved to: " +:+ output_path]
  /\ saved output_path (world (snd (main env_later))) = Some (doc (snd (main env_later))).
Proof.
  apply (main_saves_and_reports env_later).
  vm_compute. reflexivity.
Defined.
